(** * NFT marketplace front-end: checkout form, bids-placed page, creation page

    Shallow embedding of the decision logic of

    - [src/components/Offer/Form/Checkout.tsx] ([OfferFormCheckout]),
    - the bids-placed page ([getServerSideProps], [BidPlacedPage]) and
    - the token-creation page ([CreatePage]).

    React components are modelled as functions from props and hook values to
    a description of what is rendered; [async] handlers are modelled in a
    small trace-and-exception monad whose [try_catch_finally] follows the
    JavaScript completion rules. *)

From Stdlib Require Import ZArith List String Ascii Bool Lia.
From stdpp Require Import base decidable option strings gmap.
Import ListNotations.
Local Open Scope string_scope.
Local Open Scope list_scope.
Local Open Scope Z_scope.

(* ===================================================================== *)
(** * JavaScript values used by the pages *)
(* ===================================================================== *)

Module JS.

(** What a [throw] can carry in the modelled code. *)
Inductive thrown : Type :=
| Error (message : string)            (* new Error(message) *)
| InvariantError (message : string)   (* ts-invariant's invariant(false, message) *)
| TypeError                           (* property access on undefined *)
| Foreign (payload : string).         (* any value raised by an imported hook or client *)

(** Truthiness of a string: only the empty string is falsy. *)
Definition truthy (s : string) : bool :=
  match s with EmptyString => false | String _ _ => true end.

(** Truthiness of [string | null | undefined]. *)
Definition truthy_opt (s : option string) : bool :=
  match s with None => false | Some s => truthy s end.

(** [a || b] on [string | null | undefined] with a string fallback. *)
Definition or_else (a : option string) (b : string) : string :=
  match a with
  | Some s => if truthy s then s else b
  | None => b
  end.

(** A [Date] object: a time value in milliseconds, or an invalid date
    (time value NaN). *)
Inductive Date : Type :=
| ValidDate (ms : Z)
| InvalidDate.

(** [a <= b] and [a > b] on dates go through [valueOf]; every comparison
    with NaN is false. *)
Definition date_le (a b : Date) : bool :=
  match a, b with
  | ValidDate x, ValidDate y => x <=? y
  | _, _ => false
  end.

Definition date_gt (a b : Date) : bool :=
  match a, b with
  | ValidDate x, ValidDate y => y <? x
  | _, _ => false
  end.

Definition is_digit (c : ascii) : bool :=
  let n := nat_of_ascii c in (48 <=? n)%nat && (n <=? 57)%nat.

Definition digit_value (c : ascii) : Z := Z.of_nat (nat_of_ascii c) - 48.

(** A Number as [parseInt] can return it: NaN, negative zero, a finite
    double whose value is the integer [z] (positive zero is [Int 0]), or an
    infinity. *)
Inductive number : Type :=
| NaN
| NegZero
| Int (z : Z)
| Infinity (negative : bool).

(** The mathematical value of a finite number. *)
Definition finite_value (x : number) : Z :=
  match x with Int z => z | _ => 0 end.

(** [a <= b] on Numbers: false when either side is NaN. *)
Definition number_le (a b : number) : bool :=
  match a, b with
  | NaN, _ | _, NaN => false
  | Infinity true, _ => true
  | _, Infinity false => true
  | Infinity false, _ => false
  | _, Infinity true => false
  | x, y => finite_value x <=? finite_value y
  end.

(** The double nearest to a natural number [n], ties to the even
    significand; [None] when it rounds to infinity.  A double has 53
    significant bits and the finite ones are below [2^1024]. *)
Definition round_to_double (n : Z) : option Z :=
  let e := Z.log2 n - 52 in
  if e <=? 0 then Some n
  else
    let q := Z.shiftr n e in
    let r := n - Z.shiftl q e in
    let half := 2 ^ (e - 1) in
    let q' := if (half <? r) || ((r =? half) && Z.odd q) then q + 1 else q in
    let v := Z.shiftl q' e in
    if 2 ^ 1024 <=? v then None else Some v.

Definition byte (c : ascii) : nat := nat_of_ascii c.

(** The white space and line terminators that are one code unit of ASCII:
    TAB, LF, VT, FF, CR and SP. *)
Definition is_space (c : ascii) : bool :=
  let n := byte c in
  (n =? 32)%nat || ((9 <=? n)%nat && (n <=? 13)%nat).

(** U+00A0 in UTF-8. *)
Definition is_space2 (c1 c2 : ascii) : bool :=
  (byte c1 =? 194)%nat && (byte c2 =? 160)%nat.

(** The other white space and line terminators, in UTF-8: U+1680,
    U+2000 to U+200A, U+2028, U+2029, U+202F, U+205F, U+3000 and U+FEFF. *)
Definition is_space3 (c1 c2 c3 : ascii) : bool :=
  let b1 := byte c1 in
  let b2 := byte c2 in
  let b3 := byte c3 in
  ((b1 =? 225) && (b2 =? 154) && (b3 =? 128))%nat
  || ((b1 =? 226) && (b2 =? 128)
      && (((128 <=? b3) && (b3 <=? 138)) || (b3 =? 168) || (b3 =? 169)
          || (b3 =? 175)))%nat
  || ((b1 =? 226) && (b2 =? 129) && (b3 =? 159))%nat
  || ((b1 =? 227) && (b2 =? 128) && (b3 =? 128))%nat
  || ((b1 =? 239) && (b2 =? 187) && (b3 =? 191))%nat.

(** Strings are read as UTF-8.  [skip_spaces] removes the leading white
    space and line terminators, as [TrimString] does at the start. *)
Fixpoint skip_spaces (s : string) : string :=
  match s with
  | EmptyString => s
  | String c1 r1 =>
      if is_space c1 then skip_spaces r1
      else
        match r1 with
        | EmptyString => s
        | String c2 r2 =>
            if is_space2 c1 c2 then skip_spaces r2
            else
              match r2 with
              | EmptyString => s
              | String c3 r3 =>
                  if is_space3 c1 c2 c3 then skip_spaces r3 else s
              end
        end
  end.

(** Longest prefix of decimal digits, read left to right. [None] when the
    prefix is empty. *)
Fixpoint digits_prefix (acc : option Z) (s : string) : option Z :=
  match s with
  | String c r =>
      if is_digit c
      then digits_prefix
             (Some (10 * match acc with Some a => a | None => 0 end
                    + digit_value c)) r
      else acc
  | EmptyString => acc
  end.

(** The Number for [sign * n]: negative zero for a negated zero, the nearest
    double otherwise. *)
Definition to_number (negative : bool) (n : Z) : number :=
  if n =? 0 then (if negative then NegZero else Int 0)
  else match round_to_double n with
       | Some v => Int (if negative then - v else v)
       | None => Infinity negative
       end.

(** [parseInt(s, 10)]: leading white space is skipped, one sign is read,
    then the longest run of decimal digits; NaN when that run is empty.
    ECMAScript lets an implementation replace the digits after the 20th
    significant one by zeros; here every digit counts. *)
Definition parseInt10 (s : string) : number :=
  match skip_spaces s with
  | String "-" r =>
      match digits_prefix None r with
      | Some n => to_number true n
      | None => NaN
      end
  | String "+" r =>
      match digits_prefix None r with
      | Some n => to_number false n
      | None => NaN
      end
  | r =>
      match digits_prefix None r with
      | Some n => to_number false n
      | None => NaN
      end
  end.

(** All characters of a non-empty string are decimal digits. *)
Fixpoint all_digits (s : string) : bool :=
  match s with
  | String c EmptyString => is_digit c
  | String c r => is_digit c && all_digits r
  | EmptyString => false
  end.

(** [BigNumber.from] of @ethersproject/bignumber on the decimal strings
    [-?[0-9]+]; every other string is rejected here ([None] stands for the
    "invalid BigNumber string" exception).  Used to run the checkout form
    on concrete inputs; the theorems hold for any string parser. *)
Definition BigNumber_from_decimal (s : string) : option Z :=
  match s with
  | String "-" r =>
      if all_digits r then option_map Z.opp (digits_prefix None r) else None
  | _ => if all_digits s then digits_prefix None s else None
  end.

End JS.

(* ===================================================================== *)
(** * Async handlers: a trace and exception monad *)
(* ===================================================================== *)

Module Async.

Section Eff.
Context {Ev : Type}.

(** How a statement completes. *)
Inductive completion (A : Type) : Type :=
| Normal (a : A)
| Throw (e : JS.thrown).
Arguments Normal {A} a.
Arguments Throw {A} e.

(** A computation extends the trace of observable calls, in the order
    they happen, and completes. *)
Definition eff (A : Type) : Type := list Ev -> list Ev * completion A.

Definition ret {A} (a : A) : eff A := fun tr => (tr, Normal a).

Definition bind {A B} (m : eff A) (k : A -> eff B) : eff B :=
  fun tr =>
    match m tr with
    | (tr', Normal a) => k a tr'
    | (tr', Throw e) => (tr', Throw e)
    end.

Definition raise {A} (e : JS.thrown) : eff A := fun tr => (tr, Throw e).

(** A call that is observed and cannot fail. *)
Definition emit (ev : Ev) : eff unit := fun tr => (tr ++ [ev], Normal tt).

(** A call into imported code: observed, then it returns (or its promise
    resolves) or it throws (or its promise rejects). *)
Definition call (ev : Ev) (failure : option JS.thrown) : eff unit :=
  fun tr =>
    match failure with
    | None => (tr ++ [ev], Normal tt)
    | Some e => (tr ++ [ev], Throw e)
    end.

(** [try { body } catch (e) { handler e } finally { finalizer }]: the
    handler runs when the body throws; the finalizer always runs and, when
    it completes normally, the completion of the body (or of the handler)
    stands. *)
Definition try_catch_finally
    (body : eff unit) (handler : JS.thrown -> eff unit)
    (finalizer : eff unit) : eff unit :=
  fun tr =>
    let r :=
      match body tr with
      | (tr1, Normal a) => (tr1, Normal a)
      | (tr1, Throw e) => handler e tr1
      end in
    match finalizer (fst r) with
    | (tr2, Normal _) => (tr2, snd r)
    | (tr2, Throw e) => (tr2, Throw e)
    end.

(** Run a handler from an empty trace. *)
Definition run {A} (m : eff A) : list Ev * completion A := m [].
Definition trace_of {A} (m : eff A) : list Ev := fst (run m).
Definition completion_of {A} (m : eff A) : completion A := snd (run m).

End Eff.

Arguments Normal {A} a.
Arguments Throw {A} e.
Arguments eff Ev A : clear implicits.

(** The handlers are written with stdpp's monad notation [m ;; k]. *)
#[global] Instance eff_ret {Ev} : MRet (eff Ev) := fun A a => ret a.
#[global] Instance eff_bind {Ev} : MBind (eff Ev) := fun A B k m => bind m k.

End Async.

(* ===================================================================== *)
(** * The checkout form, [OfferFormCheckout] *)
(* ===================================================================== *)

Module Checkout.
Import Async.

(** [Pick<Offer, 'id' | 'unitPrice' | 'availableQuantity'>]: the GraphQL
    scalars arrive as strings. *)
Record Offer : Type := {
  id : string;
  unitPrice : string;
  availableQuantity : string
}.

(** The props the decisions below read.  [account] is
    [string | null | undefined]; an omitted [multiple] is falsy. *)
Record Props : Type := {
  account : option string;
  offer : Offer;
  multiple : bool;
  allowTopUp : bool
}.

(** What the hooks hand to one render: [useBalance] (undefined until the
    balance is fetched), [watch('quantity')] and [formState.isSubmitting]. *)
Record Hooks : Type := {
  balance : option Z;
  quantity : string;
  isSubmitting : bool
}.

(** ** The form value *)

(** [useForm({ defaultValues: { quantity: offer.availableQuantity } })]. *)
Definition defaultValues (o : Offer) : string := availableQuantity o.

(** [onChange={(x) => setValue('quantity', x)}]: the form stores the string
    the number input reports, as it is. *)
Definition onChange (x : string) (held : string) : string := x.

(** The quantity held after the number input has reported [xs], oldest
    first. *)
Definition held_quantity (o : Offer) (xs : list string) : string :=
  fold_left (fun held x => onChange x held) xs (defaultValues o).

(** The props given to Chakra's [NumberInput]; [max] is the Number that
    [parseInt] returns. *)
Record NumberInputProps : Type := {
  clampValueOnBlur : bool;
  min : Z;
  max : JS.number;
  step : Z
}.

Definition quantityInput (o : Offer) : NumberInputProps :=
  {| clampValueOnBlur := false;
     min := 1;
     max := JS.parseInt10 (availableQuantity o);
     step := 1 |}.

(** ** Rendering *)

Inductive ButtonType : Type := TypeSubmit | TypeButton.

Inductive ClickHandler : Type := loginOnOpen.

Record Button : Type := {
  type : ButtonType;
  disabled : bool;
  isLoading : bool;
  onClick : option ClickHandler
}.

(** The parts of the rendered form the properties are about: the quantity
    field (only when [multiple]), the [allowTopUp] given to [Balance] (only
    when an account is connected) and the button. *)
Record View : Type := {
  quantityField : option NumberInputProps;
  balanceAllowTopUp : option bool;
  button : Button
}.

Inductive ToastStatus : Type := StatusSuccess | StatusError.

(** Calls a handler makes that can be observed from outside. *)
Inductive event : Type :=
| AcceptOfferOnOpen
| AcceptOfferOnClose
| LoginOnOpen
| AcceptOffer (o : Offer) (quantity : string)
| OnPurchased
| Toast (title : string) (status : ToastStatus).

Section Component.
(** [BigNumber.from] on a string; [None] when it throws. *)
Variable BigNumber_from : string -> option Z.
(** [formatError] of @nft/hooks. *)
Variable formatError : JS.thrown -> string.
(** How the promise of [acceptOffer(offer, quantity)] settles: [None]
    when it resolves, [Some e] when it rejects with [e]. *)
Variable acceptOffer : Offer -> string -> option JS.thrown.
(** Whether the [onPurchased] callback returns or throws. *)
Variable onPurchased : option JS.thrown.

(** [useMemo(() => BigNumber.from(offer.unitPrice))]. *)
Definition priceUnit (o : Offer) : option Z := BigNumber_from (unitPrice o).

(** The [canPurchase] memo; [None] when [priceUnit.mul(quantity)] throws
    because [quantity] is not a BigNumber string. *)
Definition canPurchase (balance : option Z) (priceUnit : Z)
    (quantity : string) : option bool :=
  match balance with
  | None => Some false
  | Some b =>
      if negb (JS.truthy quantity) then Some false
      else match BigNumber_from quantity with
           | Some q => Some (priceUnit * q <=? b)
           | None => None
           end
  end.

(** The two memos of one render, in the order they are evaluated. *)
Definition purchasable (o : Offer) (h : Hooks) : option bool :=
  price ← priceUnit o; canPurchase (balance h) price (quantity h).

(** One render; [None] when a memo throws and nothing is rendered. *)
Definition render (p : Props) (h : Hooks) : option View :=
  can ← purchasable (offer p) h;
  Some
    {| quantityField :=
         if multiple p then Some (quantityInput (offer p)) else None;
       balanceAllowTopUp :=
         if JS.truthy_opt (account p)
         then Some (allowTopUp p && negb can)
         else None;
       button :=
         if JS.truthy_opt (account p)
         then {| type := TypeSubmit;
                 disabled := JS.truthy_opt (account p) && negb can;
                 isLoading := isSubmitting h;
                 onClick := None |}
         else {| type := TypeButton;
                 disabled := false;
                 isLoading := false;
                 onClick := Some loginOnOpen |} |}.

(** ** Submitting *)

(** The function given to [handleSubmit].  Its guard [if (!offer) throw]
    cannot fire: [offer] is an object. *)
Definition submitHandler (o : Offer) (quantity : string) : eff event unit :=
  try_catch_finally
    (emit AcceptOfferOnOpen ;;
     call (AcceptOffer o quantity) (acceptOffer o quantity) ;;
     call OnPurchased onPurchased)
    (fun e => emit (Toast (formatError e) StatusError))
    (emit AcceptOfferOnClose).

(** [handleSubmit] validates before it calls the handler: the quantity
    field is registered as [required] when it is rendered. *)
Definition onSubmit (p : Props) (quantity : string) : eff event unit :=
  if multiple p && negb (JS.truthy quantity)
  then mret tt
  else submitHandler (offer p) quantity.

(** A click on the rendered button: a disabled button ignores it, a
    [type="button"] button runs its [onClick], a [type="submit"] button
    submits the form. *)
Definition click (p : Props) (h : Hooks) : eff event unit :=
  match render p h with
  | None => mret tt
  | Some v =>
      if disabled (button v) then mret tt
      else match type (button v) with
           | TypeButton =>
               match onClick (button v) with
               | Some loginOnOpen => emit LoginOnOpen
               | None => mret tt
               end
           | TypeSubmit => onSubmit p (quantity h)
           end
  end.

(** [<form onSubmit={onSubmit}>]: a submit event of the form runs [onSubmit]
    with the form values, whoever raised it. *)
Definition formSubmit (p : Props) (h : Hooks) : eff event unit :=
  onSubmit p (quantity h).

(** The Enter key in the quantity field, which is the only text field of the
    form.  With a submit button in the form the browser activates that
    button, and a disabled one does nothing; with no submit button it
    submits the form itself. *)
Definition pressEnter (p : Props) (h : Hooks) : eff event unit :=
  match render p h with
  | None => mret tt
  | Some v =>
      match quantityField v with
      | None => mret tt
      | Some _ =>
          match type (button v) with
          | TypeSubmit =>
              if disabled (button v) then mret tt else formSubmit p h
          | TypeButton => formSubmit p h
          end
      end
  end.

End Component.

(** ** Reading a trace *)

Definition is_acceptOffer (ev : event) : bool :=
  match ev with AcceptOffer _ _ => true | _ => false end.

(** The accept-offer modal is open after a trace when the last call on its
    disclosure was [onOpen]. *)
Definition modalOpen (tr : list event) : bool :=
  fold_left
    (fun open ev =>
       match ev with
       | AcceptOfferOnOpen => true
       | AcceptOfferOnClose => false
       | _ => open
       end) tr false.

(** Whether a held quantity lies between 1 and the available supply, both
    read as [parseInt] reads them. *)
Definition within_supply (o : Offer) (held : string) : bool :=
  JS.number_le (JS.Int 1) (JS.parseInt10 held)
  && JS.number_le (JS.parseInt10 held) (JS.parseInt10 (availableQuantity o)).

End Checkout.

(* ===================================================================== *)
(** * The bids-placed page: [getServerSideProps] and [BidPlacedPage] *)
(* ===================================================================== *)

Module BidsPlaced.
Import Async.

(** A value of Next's [ParsedUrlQuery]: [string | string[]]. *)
Inductive RouteParam : Type :=
| Single (s : string)
| Multi (l : list string).

(** [GetServerSidePropsContext]: [params] may be undefined. *)
Record Context : Type := {
  params : option (gmap string RouteParam);
  query : gmap string RouteParam
}.

(** The part of [FetchUserBidsPlacedQuery] the server-side handler reads. *)
Record Account : Type := {
  name : option string;
  description : option string;
  image : option string
}.

Record FetchUserBidsPlacedQuery : Type := {
  account : option Account
}.

(** What [client.query] hands back: a rejected promise, or [{ data, error }]. *)
Inductive QueryResult : Type :=
| Rejected (e : JS.thrown)
| Settled (data : option FetchUserBidsPlacedQuery) (error : option JS.thrown).

Record Meta : Type := {
  title : string;
  meta_description : string;
  meta_image : string
}.

Section ServerSide.
(** JavaScript numbers, as the helpers of [params] produce them. *)
Variable number : Type.
(** [getLimit], [getPage], [getOrder] and [getOffset] of the [params]
    module and the two constants of [environment]. *)
Variable getLimit : Context -> number -> number.
Variable getPage : Context -> number.
Variable getOrder : Context -> string -> string.
Variable getOffset : Context -> number -> number.
Variable PAGINATION_LIMIT : number.
(** [String.prototype.toLowerCase] and [Date.prototype.toJSON]. *)
Variable toLowerCase : string -> string.
Variable toJSON : JS.Date -> string.

(** The [variables] of the [FetchUserBidsPlaced] query. *)
Record Variables : Type := {
  var_limit : number;
  var_offset : number;
  var_orderBy : string;
  var_address : string;
  var_now : JS.Date
}.

Record Props : Type := {
  page : number;
  limit : number;
  offset : number;
  orderBy : string;
  userAddress : string;
  now : string;
  meta : Meta
}.

(** A value of the [variables] object. *)
Inductive value : Type :=
| VNumber (n : number)
| VString (s : string)
| VDate (d : JS.Date).

(** The object literal [{ limit, offset, orderBy, address: userAddress, now }]
    by its keys. *)
Definition variables_object (v : Variables) : gmap string value :=
  {[ "limit" := VNumber (var_limit v);
     "offset" := VNumber (var_offset v);
     "orderBy" := VString (var_orderBy v);
     "address" := VString (var_address v);
     "now" := VDate (var_now v) ]}.

(** The Apollo client of [wrapServerSideProps]. *)
Variable client : Variables -> QueryResult.

(** The only observable call of the handler. *)
Inductive request : Type := ClientQuery (variables : Variables).

(** [context.params?.id ? (Array.isArray(id) ? id[0].toLowerCase()
    : id.toLowerCase()) : null]; an array is truthy even when empty, and
    [id[0]] is then undefined. *)
Definition userAddress_of (context : Context) : completion (option string) :=
  match params context ≫= (.!! "id") with
  | Some (Multi (x :: _)) => Normal (Some (toLowerCase x))
  | Some (Multi []) => Throw JS.TypeError
  | Some (Single s) =>
      if JS.truthy s then Normal (Some (toLowerCase s)) else Normal None
  | None => Normal None
  end.

(** [await client.query({ query, variables })]. *)
Definition client_query (v : Variables)
  : eff request (option FetchUserBidsPlacedQuery * option JS.thrown) :=
  fun tr =>
    match client v with
    | Rejected e => (tr ++ [ClientQuery v], Throw e)
    | Settled data error => (tr ++ [ClientQuery v], Normal (data, error))
    end.

(** The handler given to [wrapServerSideProps]; [date] is the value of
    [new Date()]. *)
Definition getServerSideProps (context : Context) (date : JS.Date)
  : eff request Props :=
  match userAddress_of context with
  | Throw e => raise e
  | Normal address =>
      if negb (JS.truthy_opt address)
      then raise (JS.InvariantError "userAddress is falsy")
      else
        let userAddress := default "" address in
        let limit := getLimit context PAGINATION_LIMIT in
        let page := getPage context in
        let orderBy := getOrder context "CREATED_AT_DESC" in
        let offset := getOffset context PAGINATION_LIMIT in
        '(data, error) ← client_query
             {| var_limit := limit;
                var_offset := offset;
                var_orderBy := orderBy;
                var_address := userAddress;
                var_now := date |};
        match error with
        | Some e => raise e
        | None =>
            match data with
            | None => raise (JS.Error "data is falsy")
            | Some data =>
                mret
                  {| page := page;
                     limit := limit;
                     offset := offset;
                     orderBy := orderBy;
                     userAddress := userAddress;
                     now := toJSON date;
                     meta :=
                       {| title :=
                            JS.or_else (account data ≫= name) userAddress;
                          meta_description :=
                            JS.or_else (account data ≫= description) "";
                          meta_image :=
                            JS.or_else (account data ≫= image) "" |} |}
            end
        end
  end.

End ServerSide.

(** ** The table *)

Record Asset : Type := {
  asset_id : string;
  asset_image : string;
  asset_name : string
}.

(** A bid after [convertBidFull]: amounts are BigNumbers, [expiredAt] is
    [Date | null | undefined]. *)
Record Bid : Type := {
  id : string;
  unitPrice : Z;
  availableQuantity : Z;
  expiredAt : option JS.Date;
  createdAt : JS.Date;
  asset : Asset
}.

Inductive ToastStatus : Type := StatusSuccess | StatusError.

Inductive event : Type :=
| OnOpen
| OnClose
| Cancel (id : string)
| Refetch
| Toast (title : string) (status : ToastStatus).

(** The last cell of a row. *)
Inductive RowAction : Type :=
| CancelButton (disabled : bool) (onClick : string)
| NewBidLink (href : string).

Record Row : Type := {
  key : string;
  requested : option Z;
  amount : Z;
  status : string;
  action : option RowAction
}.

Section Page.
(** [CancelOfferStep] of @nft/hooks and its member [INITIAL]. *)
Context {CancelOfferStep : Type} `{EqDecision CancelOfferStep}.
Variable INITIAL : CancelOfferStep.
(** [t] of next-translate and [formatError] of @nft/hooks. *)
Variable t : string -> string.
Variable formatError : JS.thrown -> string.
(** How the promises of [cancel({ id })] and [refetch()] settle. *)
Variable cancel : string -> option JS.thrown.
Variable refetch : option JS.thrown.

Definition handleCancelOffer (id : string) : eff event unit :=
  try_catch_finally
    (emit OnOpen ;;
     call (Cancel id) (cancel id) ;;
     emit (Toast (t "user.bid-placed.notifications.canceled") StatusSuccess) ;;
     call Refetch refetch)
    (fun e => emit (Toast (formatError e) StatusError))
    (emit OnClose).

(** The translation key of the status cell; [today] is its [new Date()]. *)
Definition statusKey (item : Bid) (today : Z) : string :=
  match expiredAt item with
  | Some d =>
      if JS.date_le d (JS.ValidDate today)
      then "user.bid-placed.status.expired"
      else "user.bid-placed.status.active"
  | None => "user.bid-placed.status.active"
  end.

(** The action cell; [today] is its [new Date()]. *)
Definition rowAction (ownerLoggedIn : bool) (activeStep : CancelOfferStep)
    (item : Bid) (today : Z) : option RowAction :=
  if ownerLoggedIn then
    if match expiredAt item with
       | None => true
       | Some d => JS.date_gt d (JS.ValidDate today)
       end
    then Some (CancelButton (bool_decide (activeStep ≠ INITIAL)) (id item))
    else Some (NewBidLink ("/tokens/" +:+ asset_id (asset item) +:+ "/bid"))
  else None.

(** One [<Tr>] of the table; the status cell and the action cell each
    read the clock. *)
Definition renderRow (ownerLoggedIn : bool) (activeStep : CancelOfferStep)
    (item : Bid) (today1 today2 : Z) : Row :=
  {| key := id item;
     requested :=
       if 1 <? availableQuantity item then Some (availableQuantity item)
       else None;
     amount := unitPrice item * availableQuantity item;
     status := t (statusKey item today1);
     action := rowAction ownerLoggedIn activeStep item today2 |}.

(** A click on the action cell: only an enabled cancel button runs a
    handler of this page. *)
Definition clickAction (a : option RowAction) : eff event unit :=
  match a with
  | Some (CancelButton false id) => handleCancelOffer id
  | _ => mret tt
  end.

End Page.

Definition is_cancel (ev : event) : bool :=
  match ev with Cancel _ => true | _ => false end.

Definition modalOpen (tr : list event) : bool :=
  fold_left
    (fun open ev =>
       match ev with
       | OnOpen => true
       | OnClose => false
       | _ => open
       end) tr false.

End BidsPlaced.

(* ===================================================================== *)
(** * The token-creation page, [CreatePage] *)
(* ===================================================================== *)

Module Create.

Record Verification : Type := {
  status : string
}.

(** The part of [FetchAccountQuery] the page reads. *)
Record Account : Type := {
  address : string;
  image : option string;
  name : option string;
  verification : option Verification
}.

Record FetchAccountQuery : Type := {
  account : option Account
}.

Record Creator : Type := {
  creator_address : string;
  creator_image : option string;
  creator_name : option string;
  verified : bool
}.

(** [x || undefined] on [string | null | undefined]. *)
Definition or_undefined (x : option string) : option string :=
  match x with
  | Some s => if JS.truthy s then Some s else None
  | None => None
  end.

(** The [creator] memo; [data] is undefined until the query has answered. *)
Definition creator (data : option FetchAccountQuery) : Creator :=
  let acc := data ≫= account in
  {| creator_address := JS.or_else (address <$> acc) "0x";
     creator_image := or_undefined (acc ≫= image);
     creator_name := or_undefined (acc ≫= name);
     verified :=
       bool_decide
         (status <$> (acc ≫= verification) = Some "VALIDATED") |}.

(** The rendered tree: components and DOM elements by name, and texts. *)
#[warnings="-register-all"]
Inductive element : Type :=
| El (tag : string) (children : list element)
| Text (s : string).

(** Whether a component or DOM element of that name occurs in the tree. *)
Fixpoint renders (tag : string) (e : element) : bool :=
  match e with
  | El tg children => bool_decide (tg = tag) || existsb (renders tag) children
  | Text _ => false
  end.

(** Whether that text occurs in the tree. *)
Fixpoint shows (text : string) (e : element) : bool :=
  match e with
  | El _ children => existsb (shows text) children
  | Text s => bool_decide (s = text)
  end.

Section Page.
(** [environment.RESTRICT_TO_VERIFIED_ACCOUNT] and [environment.REPORT_EMAIL]. *)
Variable RESTRICT_TO_VERIFIED_ACCOUNT : bool.
Variable REPORT_EMAIL : string.
(** [t] of next-translate. *)
Variable t : string -> string.

Definition Layout (children : list element) : element :=
  El "SmallLayout" (El "Head" [] :: children).

Definition CreatePage (data : option FetchAccountQuery) (multiple : bool)
  : element :=
  if RESTRICT_TO_VERIFIED_ACCOUNT && negb (verified (creator data)) then
    Layout
      [ El "BackButton" [];
        El "Heading" [Text (t "asset.typeSelector.title")];
        El "Stack"
          [ El "Center" [El "Icon" []];
            El "Stack"
              [ El "Heading" [Text (t "asset.restricted.title")];
                El "Text"
                  [El "Trans" [El "Link" [Text REPORT_EMAIL]]] ];
            El "Alert"
              [ El "AlertIcon" [];
                El "Text" [Text (t "asset.restricted.info")] ] ] ]
  else
    Layout
      [ El "BackButton" [];
        El "Heading"
          [Text (if multiple then t "asset.form.title.multiple"
                 else t "asset.form.title.single")];
        El "Flex"
          [ El "div"
              [ El "Flex" [Text (t "asset.form.preview")];
                El "TokenCard" [] ];
            El "TokenFormCreate" [] ] ].

End Page.

End Create.


(* ===================================================================== *)
(** * Concrete inputs on which the pages are run below *)
(* ===================================================================== *)

Module Sample.

(** A [formatError] that shows the message of the error. *)
Definition formatError (e : JS.thrown) : string :=
  match e with
  | JS.Error m => m
  | JS.InvariantError m => m
  | JS.TypeError => "TypeError"
  | JS.Foreign m => m
  end.

(** A translation function that shows the key. *)
Definition t (key : string) : string := key.

(** An offer of five items at 100 each. *)
Definition offer : Checkout.Offer :=
  {| Checkout.id := "offer-1";
     Checkout.unitPrice := "100";
     Checkout.availableQuantity := "5" |}.

Definition visitor : Checkout.Props :=
  {| Checkout.account := None;
     Checkout.offer := offer;
     Checkout.multiple := true;
     Checkout.allowTopUp := true |}.

Definition buyer : Checkout.Props :=
  {| Checkout.account := Some "0xa11ce";
     Checkout.offer := offer;
     Checkout.multiple := true;
     Checkout.allowTopUp := true |}.

Definition hooks (balance : option Z) (quantity : string) : Checkout.Hooks :=
  {| Checkout.balance := balance;
     Checkout.quantity := quantity;
     Checkout.isSubmitting := false |}.

(** The steps of a cancellation, for runs of the bids-placed page. *)
Inductive CancelOfferStep : Type :=
| INITIAL
| TRANSACTION_SIGNATURE
| TRANSACTION_PENDING.

#[global] Instance CancelOfferStep_eq_dec : EqDecision CancelOfferStep.
Proof. solve_decision. Defined.

Definition asset : BidsPlaced.Asset :=
  {| BidsPlaced.asset_id := "80001-0xc0ffee-1";
     BidsPlaced.asset_image := "ipfs://image";
     BidsPlaced.asset_name := "Token" |}.

(** A bid of 3 items at 20 each that expires at the given time, if any. *)
Definition bid (expiredAt : option JS.Date) : BidsPlaced.Bid :=
  {| BidsPlaced.id := "bid-7";
     BidsPlaced.unitPrice := 20;
     BidsPlaced.availableQuantity := 3;
     BidsPlaced.expiredAt := expiredAt;
     BidsPlaced.createdAt := JS.ValidDate 1000;
     BidsPlaced.asset := asset |}.

(** Lower-casing of the letters A to Z. *)
Definition lower_ascii (c : ascii) : ascii :=
  let n := nat_of_ascii c in
  if (65 <=? n)%nat && (n <=? 90)%nat then ascii_of_nat (n + 32) else c.

Fixpoint toLowerCase (s : string) : string :=
  match s with
  | String c r => String (lower_ascii c) (toLowerCase r)
  | EmptyString => EmptyString
  end.

(** A request for [/users/0xA11CE/bids/placed] without query parameters,
    served with a page size of 12. *)
Definition context : BidsPlaced.Context :=
  {| BidsPlaced.params := Some {[ "id" := BidsPlaced.Single "0xA11CE" ]};
     BidsPlaced.query := ∅ |}.

Definition getLimit (c : BidsPlaced.Context) (defaultLimit : Z) : Z :=
  defaultLimit.
Definition getPage (c : BidsPlaced.Context) : Z := 1.
Definition getOrder (c : BidsPlaced.Context) (defaultOrder : string) : string :=
  defaultOrder.
Definition getOffset (c : BidsPlaced.Context) (defaultLimit : Z) : Z := 0.
Definition toJSON (d : JS.Date) : string := "2022-01-01T00:00:00.000Z".

(** A backend that knows the profile. *)
Definition client (v : BidsPlaced.Variables Z) : BidsPlaced.QueryResult :=
  BidsPlaced.Settled
    (Some {| BidsPlaced.account :=
               Some {| BidsPlaced.name := Some "Alice";
                       BidsPlaced.description := None;
                       BidsPlaced.image := Some "" |} |})
    None.

(** An account whose verification is still pending. *)
Definition pendingAccount : Create.FetchAccountQuery :=
  {| Create.account :=
       Some {| Create.address := "0xa11ce";
               Create.image := None;
               Create.name := Some "Alice";
               Create.verification :=
                 Some {| Create.status := "PENDING" |} |} |}.

(** A hook whose promise rejects with the given reason. *)
Definition rejecting (reason : string) : option JS.thrown :=
  Some (JS.Foreign reason).

End Sample.

(* ===================================================================== *)
(** * Further handlers of the bids-placed page *)
(* ===================================================================== *)

Module BidsPlacedRouting.
Import Async.

(** The only observable call of [changeOrder]: [replace(url)] of the router. *)
Inductive navigation : Type :=
| Replace (pathname : string) (query : gmap string BidsPlaced.RouteParam).

(** [await replace({ pathname, query: { ...query, orderBy } })]; [replace]
    tells how the promise of the router settles. *)
Definition changeOrder (pathname : string)
    (query : gmap string BidsPlaced.RouteParam)
    (replace : option JS.thrown) (orderBy : string) : eff navigation unit :=
  call (Replace pathname (<["orderBy" := BidsPlaced.Single orderBy]> query))
    replace.

End BidsPlacedRouting.

(* ===================================================================== *)
(** * Further parts of the token-creation page *)
(* ===================================================================== *)

Module CreateServer.
Import Async.

(** The context of [wrapServerSideProps]: the signed-in user and the query
    string. *)
Record Context : Type := {
  user_address : option string;
  query : gmap string BidsPlaced.RouteParam
}.

Record Variables : Type := {
  var_account : string
}.

Inductive QueryResult : Type :=
| Rejected (e : JS.thrown)
| Settled (data : option Create.FetchAccountQuery) (error : option JS.thrown).

Record Props : Type := {
  multiple : bool;
  currentAccount : option string
}.

Inductive request : Type := ClientQuery (variables : Variables).

(** [===] on a value of the query string. *)
#[global] Instance RouteParam_eq_dec : EqDecision BidsPlaced.RouteParam.
Proof. solve_decision. Defined.

Section ServerSide.
Variable client : Variables -> QueryResult.

Definition client_query (v : Variables)
  : eff request (option Create.FetchAccountQuery * option JS.thrown) :=
  fun tr =>
    match client v with
    | Rejected e => (tr ++ [ClientQuery v], Throw e)
    | Settled data error => (tr ++ [ClientQuery v], Normal (data, error))
    end.

(** The handler of the creation page: [context.query.type === 'multiple']
    holds for the string only, not for an array. *)
Definition getServerSideProps (context : Context) : eff request Props :=
  '(data, error) ← client_query
       {| var_account := JS.or_else (user_address context) "" |};
  match error with
  | Some e => raise e
  | None =>
      match data with
      | None => raise (JS.Error "data is falsy")
      | Some _ =>
          mret
            {| multiple :=
                 bool_decide
                   (query context !! "type"
                    = Some (BidsPlaced.Single "multiple"));
               currentAccount := user_address context |}
      end
  end.

End ServerSide.

End CreateServer.

Module CreateClient.
Import Async.

(** The fields of [Partial<FormData>] the page reads; every field may be
    missing. *)
Record FormData (File : Type) : Type := {
  isPrivate : option bool;
  isAnimation : option bool;
  preview : option File;
  content : option File;
  name : option string
}.
Arguments isPrivate {File} _.
Arguments isAnimation {File} _.
Arguments preview {File} _.
Arguments content {File} _.
Arguments name {File} _.

(** Truthiness of [boolean | undefined]. *)
Definition flag (b : option bool) : bool := default false b.

(** The file given to the first [useLocalFileURL]:
    [formData?.isPrivate || formData?.isAnimation ? formData?.preview
    : formData?.content]. *)
Definition imageSource {File} (formData : option (FormData File))
  : option File :=
  if flag (formData ≫= isPrivate) || flag (formData ≫= isAnimation)
  then formData ≫= preview
  else formData ≫= content.

(** The file given to the second [useLocalFileURL]:
    [formData?.isAnimation && !formData.isPrivate ? formData.content
    : undefined]. *)
Definition animationSource {File} (formData : option (FormData File))
  : option File :=
  if flag (formData ≫= isAnimation) && negb (flag (formData ≫= isPrivate))
  then formData ≫= content
  else None.

Inductive ToastStatus : Type := StatusSuccess | StatusError.

Inductive event : Type :=
| Toast (title : string) (status : ToastStatus)
| Push (url : string).

(** [onCreated]: a success toast, then [await push(`/tokens/${assetId}`)];
    there is no [try] around it.  [push] tells how the promise of the router
    settles. *)
Definition onCreated (t : string -> string)
    (push : string -> option JS.thrown) (assetId : string) : eff event unit :=
  emit (Toast (t "asset.form.notifications.created") StatusSuccess) ;;
  call (Push ("/tokens/" +:+ assetId)) (push ("/tokens/" +:+ assetId)).

End CreateClient.

(* ===================================================================== *)
(** * Facts about the JavaScript primitives and the handler monad *)
(* ===================================================================== *)

Module JSFacts.

Example parseInt10_plain : JS.parseInt10 "5" = JS.Int 5.
Proof. reflexivity. Qed.

Example parseInt10_prefix : JS.parseInt10 "  12px" = JS.Int 12.
Proof. reflexivity. Qed.

Example parseInt10_negative : JS.parseInt10 "-3" = JS.Int (-3).
Proof. reflexivity. Qed.

Example parseInt10_NaN : JS.parseInt10 "many" = JS.NaN.
Proof. reflexivity. Qed.

Example parseInt10_negative_zero : JS.parseInt10 "-0" = JS.NegZero.
Proof. reflexivity. Qed.

(** Above [2^53] the result is the nearest double. *)
Example parseInt10_rounds_to_even :
  JS.parseInt10 "9007199254740993" = JS.Int 9007199254740992
  /\ JS.parseInt10 "9007199254740995" = JS.Int 9007199254740996.
Proof. split; vm_compute; reflexivity. Qed.

Example parseInt10_largest_double :
  JS.parseInt10
    "179769313486231570814527423731704356798070567525844996598917476803157260780028538760589558632766878171540458953514382464234321326889464182768467546703537516986049910576551282076245490090389328944075868508455133942304583236903222948165808559332123348274797826204144723168738177180919299881250404026184124858368"
  = JS.Int (2 ^ 1024 - 2 ^ 971)
  /\ JS.parseInt10
       "179769313486231580793728971405303415079934132710037826936173778980444968292764750946649017977587207096330286416692887910946555547851940402630657488671505820681908902000708383676273854845817711531764475730270069855571366959622842914819860834936475292719074168444365510704342711559699508093042880177904174497792"
     = JS.Infinity false.
Proof. split; vm_compute; reflexivity. Qed.

(** A no-break space (U+00A0) and an ideographic space (U+3000) are skipped. *)
Example parseInt10_unicode_space :
  JS.parseInt10 (String (ascii_of_nat 194) (String (ascii_of_nat 160) "7"))
    = JS.Int 7
  /\ JS.parseInt10
       (String (ascii_of_nat 227)
          (String (ascii_of_nat 128) (String (ascii_of_nat 128) "7")))
     = JS.Int 7.
Proof. split; reflexivity. Qed.

Example BigNumber_from_decimal_rejects_fraction :
  JS.BigNumber_from_decimal "1.5" = None.
Proof. reflexivity. Qed.

Lemma truthy_nonempty (s : string) : JS.truthy s = true <-> s <> "".
Proof. destruct s; simpl; split; congruence. Qed.

(** An invalid date is neither before nor after any date. *)
Lemma invalid_date_incomparable (d : JS.Date) :
  JS.date_le JS.InvalidDate d = false /\ JS.date_gt JS.InvalidDate d = false.
Proof. split; reflexivity. Qed.

(** On valid dates [>] is the negation of [<=]. *)
Lemma date_gt_negb_le (x y : Z) :
  JS.date_gt (JS.ValidDate x) (JS.ValidDate y)
  = negb (JS.date_le (JS.ValidDate x) (JS.ValidDate y)).
Proof. simpl. apply Z.ltb_antisym. Qed.

End JSFacts.

Module AsyncFacts.
Import Async.

Section Laws.
Context {Ev : Type}.

Lemma bind_ret_l {A B} (a : A) (k : A -> eff Ev B) (tr : list Ev) :
  (mret a ≫= k) tr = k a tr.
Proof. reflexivity. Qed.

Lemma bind_raise {A B} (e : JS.thrown) (k : A -> eff Ev B) (tr : list Ev) :
  (raise e ≫= k) tr = (tr, Throw e).
Proof. reflexivity. Qed.

Lemma bind_assoc {A B C} (m : eff Ev A) (k : A -> eff Ev B)
    (k' : B -> eff Ev C) (tr : list Ev) :
  ((m ≫= k) ≫= k') tr = (m ≫= (fun a => k a ≫= k')) tr.
Proof.
  unfold mbind, eff_bind, bind. destruct (m tr) as [tr1 [a|e]]; reflexivity.
Qed.

(** A [finally] block that only makes an observable call always makes it,
    and makes it last. *)
Lemma finally_runs_last (body : eff Ev unit) (handler : JS.thrown -> eff Ev unit)
    (ev : Ev) (tr : list Ev) :
  exists tr', fst (try_catch_finally body handler (emit ev) tr) = tr' ++ [ev].
Proof.
  unfold try_catch_finally, emit. simpl.
  destruct (body tr) as [tr1 [a|e]]; simpl; eauto.
Qed.

(** A body that throws is handed to the [catch] block, and a handler that
    completes normally makes the whole statement complete normally. *)
Lemma catch_recovers (body : eff Ev unit) (handler : JS.thrown -> eff Ev unit)
    (ev : Ev) (tr tr1 tr2 : list Ev) (e : JS.thrown) :
  body tr = (tr1, Throw e) ->
  handler e tr1 = (tr2, Normal tt) ->
  try_catch_finally body handler (emit ev) tr = (tr2 ++ [ev], Normal tt).
Proof.
  intros Hb Hh. unfold try_catch_finally, emit. rewrite Hb, Hh. reflexivity.
Qed.

(** A body that completes normally skips the [catch] block. *)
Lemma catch_skipped (body : eff Ev unit) (handler : JS.thrown -> eff Ev unit)
    (ev : Ev) (tr tr1 : list Ev) :
  body tr = (tr1, Normal tt) ->
  try_catch_finally body handler (emit ev) tr = (tr1 ++ [ev], Normal tt).
Proof.
  intros Hb. unfold try_catch_finally, emit. rewrite Hb. reflexivity.
Qed.

End Laws.

End AsyncFacts.

(* ===================================================================== *)
(** * Properties of the checkout form *)
(* ===================================================================== *)

Module CheckoutFacts.
Import Async Checkout.

Section Purchase.
Variable BigNumber_from : string -> option Z.

Lemma canPurchase_true (balance : option Z) (price : Z) (quantity : string) :
  canPurchase BigNumber_from balance price quantity = Some true <->
  exists b q,
    balance = Some b /\ JS.truthy quantity = true /\
    BigNumber_from quantity = Some q /\ b >= price * q.
Proof.
  unfold canPurchase. split.
  - destruct balance as [b|]; [|discriminate].
    destruct (JS.truthy quantity) eqn:Hq; simpl; [|discriminate].
    destruct (BigNumber_from quantity) as [q|] eqn:Hn; [|discriminate].
    intros [= Hle]. exists b, q. repeat split; auto.
    apply Z.leb_le in Hle. lia.
  - intros (b & q & -> & -> & -> & Hge). simpl.
    f_equal. apply Z.leb_le. lia.
Qed.

(** C1. [canPurchase] is true exactly when the balance is loaded, the
    quantity is not empty and [balance >= unitPrice * quantity] over the
    integers, [unitPrice] and [quantity] being read as BigNumbers; it is
    false while the balance has not loaded and when the quantity is empty. *)
Theorem canPurchase_iff (o : Offer) (h : Hooks) (price : Z) :
  (purchasable BigNumber_from o h = Some true <->
   exists b p q,
     balance h = Some b /\ JS.truthy (quantity h) = true /\
     BigNumber_from (unitPrice o) = Some p /\
     BigNumber_from (quantity h) = Some q /\ b >= p * q)
  /\ canPurchase BigNumber_from None price (quantity h) = Some false
  /\ canPurchase BigNumber_from (balance h) price "" = Some false.
Proof.
  split; [|split].
  - unfold purchasable, priceUnit. split.
    + destruct (BigNumber_from (unitPrice o)) as [p|] eqn:Hp; [|discriminate].
      simpl. intros H. apply canPurchase_true in H.
      destruct H as (b & q & Hb & Hq & Hn & Hge).
      exists b, p, q. auto.
    + intros (b & p & q & Hb & Hq & Hp & Hn & Hge). rewrite Hp. simpl.
      apply canPurchase_true. exists b, q. auto.
  - reflexivity.
  - unfold canPurchase. destruct (balance h); reflexivity.
Qed.

End Purchase.

(** The form on the sample offer: a balance of 500 pays for five items, a
    balance of 499 does not. *)
Example purchasable_500 :
  purchasable JS.BigNumber_from_decimal Sample.offer (Sample.hooks (Some 500) "5")
  = Some true.
Proof. reflexivity. Qed.

Example purchasable_499 :
  purchasable JS.BigNumber_from_decimal Sample.offer (Sample.hooks (Some 499) "5")
  = Some false.
Proof. reflexivity. Qed.

Example purchasable_fraction_throws :
  purchasable JS.BigNumber_from_decimal Sample.offer (Sample.hooks (Some 500) "1.5")
  = None.
Proof. reflexivity. Qed.


(** ** The quantity field *)

(** C4 as stated fails: with five items available, a typed 999 is held as
    it is. *)
Lemma typed_quantity_is_not_clamped :
  held_quantity Sample.offer ["999"] = "999"
  /\ max (quantityInput Sample.offer) = JS.Int 5
  /\ within_supply Sample.offer (held_quantity Sample.offer ["999"]) = false.
Proof. repeat split. Qed.

Lemma held_quantity_last (o : Offer) (xs : list string) (x : string) :
  held_quantity o (xs ++ [x]) = x.
Proof. unfold held_quantity. rewrite fold_left_app. reflexivity. Qed.

(** C4, as the code has it.  The number input is given the bounds [min = 1]
    and [max = parseInt(offer.availableQuantity, 10)] with clamping on blur
    switched off, and the form does not clamp either: it holds
    [offer.availableQuantity] at first and from then on the last string the
    input reported, unchanged, so that the held quantity is within the supply
    exactly when that string is. *)
Theorem quantity_field_bounds_without_clamping
    (o : Offer) (xs : list string) (x : string) :
  quantityInput o =
    {| clampValueOnBlur := false;
       min := 1;
       max := JS.parseInt10 (availableQuantity o);
       step := 1 |}
  /\ held_quantity o [] = availableQuantity o
  /\ held_quantity o (xs ++ [x]) = x
  /\ within_supply o (held_quantity o (xs ++ [x])) = within_supply o x.
Proof.
  repeat split.
  - apply held_quantity_last.
  - rewrite held_quantity_last. reflexivity.
Qed.

(** ** The button *)

Section ButtonFacts.
Variable BigNumber_from : string -> option Z.
Variable formatError : JS.thrown -> string.
Variable acceptOffer : Offer -> string -> option JS.thrown.
Variable onPurchased : option JS.thrown.

Local Abbreviation render' := (render BigNumber_from).
Local Abbreviation click' :=
  (click BigNumber_from formatError acceptOffer onPurchased).
Local Abbreviation pressEnter' :=
  (pressEnter BigNumber_from formatError acceptOffer onPurchased).

Lemma render_button (p : Props) (h : Hooks) (can : bool) :
  purchasable BigNumber_from (offer p) h = Some can ->
  button <$> render' p h =
    Some (if JS.truthy_opt (account p)
          then {| type := TypeSubmit;
                  disabled := negb can;
                  isLoading := isSubmitting h;
                  onClick := None |}
          else {| type := TypeButton;
                  disabled := false;
                  isLoading := false;
                  onClick := Some loginOnOpen |}).
Proof.
  intros H. unfold render. rewrite H. simpl.
  destruct (JS.truthy_opt (account p)); reflexivity.
Qed.

Lemma click_without_account (p : Props) (h : Hooks) :
  JS.truthy_opt (account p) = false ->
  trace_of (click' p h) =
    match purchasable BigNumber_from (offer p) h with
    | Some _ => [LoginOnOpen]
    | None => []
    end.
Proof.
  intros Ha. unfold click, render.
  destruct (purchasable BigNumber_from (offer p) h) as [can|]; simpl;
    [|reflexivity].
  rewrite Ha. reflexivity.
Qed.


End ButtonFacts.



(** An enabled submit button does submit: with a balance of 500 the buyer's
    click reaches [acceptOffer]. *)
Example buyer_click_submits :
  trace_of (click JS.BigNumber_from_decimal Sample.formatError
              (fun _ _ => None) None Sample.buyer
              (Sample.hooks (Some 500) "5")) =
    [AcceptOfferOnOpen; AcceptOffer Sample.offer "5"; OnPurchased;
     AcceptOfferOnClose].
Proof. reflexivity. Qed.

End CheckoutFacts.

(* ===================================================================== *)
(** * Properties of the two handlers that await an imported hook *)
(* ===================================================================== *)

Module HandlerFacts.
Import Async.

(** Unfold a handler down to its trace. *)
Ltac run_handler :=
  unfold trace_of, completion_of, run, Checkout.submitHandler,
    BidsPlaced.handleCancelOffer, try_catch_finally, mbind, eff_bind, bind,
    call, emit; simpl.

Section Handlers.
Variable formatError : JS.thrown -> string.
Variable t : string -> string.
Variable acceptOffer : Checkout.Offer -> string -> option JS.thrown.
Variable onPurchased : option JS.thrown.
Variable cancel : string -> option JS.thrown.
Variable refetch : option JS.thrown.

Local Abbreviation submit :=
  (Checkout.submitHandler formatError acceptOffer onPurchased).
Local Abbreviation cancelOffer :=
  (BidsPlaced.handleCancelOffer t formatError cancel refetch).

(** Whatever the body and the handler do, the [finally] block closes the
    modal. *)
Lemma submit_closes_modal (o : Checkout.Offer) (q : string) :
  Checkout.modalOpen (trace_of (submit o q)) = false.
Proof.
  unfold trace_of, run, Checkout.submitHandler.
  destruct (AsyncFacts.finally_runs_last
              (emit Checkout.AcceptOfferOnOpen ;;
               call (Checkout.AcceptOffer o q) (acceptOffer o q) ;;
               call Checkout.OnPurchased onPurchased)
              (fun e => emit (Checkout.Toast (formatError e) Checkout.StatusError))
              Checkout.AcceptOfferOnClose []) as [tr' ->].
  unfold Checkout.modalOpen. rewrite fold_left_app. reflexivity.
Qed.

Lemma cancelOffer_closes_modal (id : string) :
  BidsPlaced.modalOpen (trace_of (cancelOffer id)) = false.
Proof.
  unfold trace_of, run, BidsPlaced.handleCancelOffer.
  destruct (AsyncFacts.finally_runs_last
              (emit BidsPlaced.OnOpen ;;
               call (BidsPlaced.Cancel id) (cancel id) ;;
               emit (BidsPlaced.Toast
                       (t "user.bid-placed.notifications.canceled")
                       BidsPlaced.StatusSuccess) ;;
               call BidsPlaced.Refetch refetch)
              (fun e => emit (BidsPlaced.Toast (formatError e)
                                BidsPlaced.StatusError))
              BidsPlaced.OnClose []) as [tr' ->].
  unfold BidsPlaced.modalOpen. rewrite fold_left_app. reflexivity.
Qed.

Lemma submit_rejected (o : Checkout.Offer) (q : string) (e : JS.thrown) :
  acceptOffer o q = Some e ->
  run (submit o q) =
    ([Checkout.AcceptOfferOnOpen; Checkout.AcceptOffer o q;
      Checkout.Toast (formatError e) Checkout.StatusError;
      Checkout.AcceptOfferOnClose], Normal tt).
Proof. intros H. run_handler. rewrite H. reflexivity. Qed.

Lemma cancelOffer_rejected (id : string) (e : JS.thrown) :
  cancel id = Some e ->
  run (cancelOffer id) =
    ([BidsPlaced.OnOpen; BidsPlaced.Cancel id;
      BidsPlaced.Toast (formatError e) BidsPlaced.StatusError;
      BidsPlaced.OnClose], Normal tt).
Proof. intros H. run_handler. rewrite H. reflexivity. Qed.

(** C2. When the awaited hook rejects with [e], the handler shows exactly one
    toast, [formatError e] with status error, closes the modal and completes
    normally; the success continuation ([onPurchased]; the success toast and
    [refetch]) is not reached.  The modal is closed at the end of every run,
    whatever the hooks do. *)
Theorem hook_failure_toasted_and_modal_closed
    (o : Checkout.Offer) (q id : string) :
  (forall e, acceptOffer o q = Some e ->
     run (submit o q) =
       ([Checkout.AcceptOfferOnOpen; Checkout.AcceptOffer o q;
         Checkout.Toast (formatError e) Checkout.StatusError;
         Checkout.AcceptOfferOnClose], Normal tt))
  /\ (forall e, cancel id = Some e ->
        run (cancelOffer id) =
          ([BidsPlaced.OnOpen; BidsPlaced.Cancel id;
            BidsPlaced.Toast (formatError e) BidsPlaced.StatusError;
            BidsPlaced.OnClose], Normal tt))
  /\ Checkout.modalOpen (trace_of (submit o q)) = false
  /\ BidsPlaced.modalOpen (trace_of (cancelOffer id)) = false.
Proof.
  repeat split.
  - apply submit_rejected.
  - apply cancelOffer_rejected.
  - apply submit_closes_modal.
  - apply cancelOffer_closes_modal.
Qed.

(** C3, as the code has it.  Each handler awaits the promise of its hook
    exactly once.  Cancelling a bid shows a toast when the promise resolves
    (the success toast) and when it rejects (the error toast).  The checkout
    form shows the error toast when the promise rejects and never shows a
    success toast: when the promise resolves it calls [onPurchased] and shows
    no toast, unless [onPurchased] itself throws, and then that error is
    toasted. *)
Theorem one_promise_per_action_and_toasts
    (o : Checkout.Offer) (q id : string) :
  length (filter Checkout.is_acceptOffer (trace_of (submit o q))) = 1%nat
  /\ length (filter BidsPlaced.is_cancel (trace_of (cancelOffer id))) = 1%nat
  /\ (cancel id = None ->
      In (BidsPlaced.Toast (t "user.bid-placed.notifications.canceled")
            BidsPlaced.StatusSuccess)
         (trace_of (cancelOffer id)))
  /\ (forall e, cancel id = Some e ->
      In (BidsPlaced.Toast (formatError e) BidsPlaced.StatusError)
         (trace_of (cancelOffer id)))
  /\ (forall e, acceptOffer o q = Some e ->
      In (Checkout.Toast (formatError e) Checkout.StatusError)
         (trace_of (submit o q)))
  /\ (forall title,
        ~ In (Checkout.Toast title Checkout.StatusSuccess)
             (trace_of (submit o q)))
  /\ (acceptOffer o q = None ->
      trace_of (submit o q) =
        [Checkout.AcceptOfferOnOpen; Checkout.AcceptOffer o q;
         Checkout.OnPurchased]
        ++ match onPurchased with
           | None => []
           | Some e => [Checkout.Toast (formatError e) Checkout.StatusError]
           end
        ++ [Checkout.AcceptOfferOnClose]).
Proof.
  repeat split.
  - run_handler. destruct (acceptOffer o q); simpl; [reflexivity|].
    destruct onPurchased; reflexivity.
  - run_handler. destruct (cancel id); simpl; [reflexivity|].
    destruct refetch; reflexivity.
  - intros H. run_handler. rewrite H. simpl.
    destruct refetch; simpl; auto 6.
  - intros e H. unfold trace_of. rewrite (cancelOffer_rejected id e H).
    simpl. auto.
  - intros e H. unfold trace_of. rewrite (submit_rejected o q e H).
    simpl. auto.
  - intros title. run_handler.
    destruct (acceptOffer o q); simpl; [|destruct onPurchased; simpl];
      intros Hin;
      repeat (destruct Hin as [Hin|Hin]; [discriminate Hin|]);
      exact Hin.
  - intros H1. run_handler. rewrite H1. simpl.
    destruct onPurchased; reflexivity.
Qed.

End Handlers.

Lemma hook_failure_toasted_and_modal_closed_witness :
  run (Checkout.submitHandler Sample.formatError
         (fun _ _ => Sample.rejecting "user rejected") None Sample.offer "2") =
    ([Checkout.AcceptOfferOnOpen; Checkout.AcceptOffer Sample.offer "2";
      Checkout.Toast "user rejected" Checkout.StatusError;
      Checkout.AcceptOfferOnClose], Normal tt)
  /\ run (BidsPlaced.handleCancelOffer Sample.t Sample.formatError
            (fun _ => Sample.rejecting "user rejected") None "bid-7") =
       ([BidsPlaced.OnOpen; BidsPlaced.Cancel "bid-7";
         BidsPlaced.Toast "user rejected" BidsPlaced.StatusError;
         BidsPlaced.OnClose], Normal tt).
Proof.
  pose proof (hook_failure_toasted_and_modal_closed Sample.formatError Sample.t
                (fun _ _ => Sample.rejecting "user rejected") None
                (fun _ => Sample.rejecting "user rejected") None
                Sample.offer "2" "bid-7") as (H1 & H2 & _ & _).
  split.
  - apply (H1 (JS.Foreign "user rejected")). reflexivity.
  - apply (H2 (JS.Foreign "user rejected")). reflexivity.
Defined.

(** C3 as stated fails on the checkout form: when [acceptOffer] resolves, the
    form shows no toast. *)
Lemma checkout_success_shows_no_toast :
  ~ (exists title status,
       In (Checkout.Toast title status)
          (trace_of (Checkout.submitHandler Sample.formatError
                       (fun _ _ => None) None Sample.offer "2"))).
Proof.
  intros (title & status & H). vm_compute in H.
  repeat (destruct H as [H|H]; [discriminate H|]). exact H.
Qed.

Lemma one_promise_per_action_and_toasts_witness :
  In (BidsPlaced.Toast "user.bid-placed.notifications.canceled"
        BidsPlaced.StatusSuccess)
     (trace_of (BidsPlaced.handleCancelOffer Sample.t Sample.formatError
                  (fun _ => None) None "bid-7"))
  /\ trace_of (Checkout.submitHandler Sample.formatError
                 (fun _ _ => None) None Sample.offer "2") =
       [Checkout.AcceptOfferOnOpen; Checkout.AcceptOffer Sample.offer "2";
        Checkout.OnPurchased; Checkout.AcceptOfferOnClose].
Proof.
  pose proof (one_promise_per_action_and_toasts Sample.formatError Sample.t
                (fun _ _ => None) None (fun _ => None) None
                Sample.offer "2" "bid-7") as (_ & _ & H3 & _ & _ & _ & H7).
  split.
  - apply H3. reflexivity.
  - apply H7. reflexivity.
Defined.

End HandlerFacts.

(* ===================================================================== *)
(** * Properties of the bids-placed page *)
(* ===================================================================== *)

Module BidsPlacedFacts.
Import Async BidsPlaced.

Section ServerSideFacts.
Variable number : Type.
Variable getLimit : Context -> number -> number.
Variable getPage : Context -> number.
Variable getOrder : Context -> string -> string.
Variable getOffset : Context -> number -> number.
Variable PAGINATION_LIMIT : number.
Variable toLowerCase : string -> string.
Variable toJSON : JS.Date -> string.
Variable client : Variables number -> QueryResult.

Local Abbreviation handler :=
  (getServerSideProps number getLimit getPage getOrder getOffset
     PAGINATION_LIMIT toLowerCase toJSON client).

(** The variables the handler derives for the address [address]. *)
Local Abbreviation derived context address date :=
  {| var_limit := getLimit context PAGINATION_LIMIT;
     var_offset := getOffset context PAGINATION_LIMIT;
     var_orderBy := getOrder context "CREATED_AT_DESC";
     var_address := address;
     var_now := date |}.

Lemma userAddress_of_id (context : Context) (s : string) :
  (params context ≫= (.!! "id") = Some (Single s)
   \/ exists rest, params context ≫= (.!! "id") = Some (Multi (s :: rest))) ->
  JS.truthy s = true ->
  userAddress_of toLowerCase context = Normal (Some (toLowerCase s)).
Proof.
  intros [H | [rest H]] Hs; unfold userAddress_of; rewrite H.
  - rewrite Hs. reflexivity.
  - reflexivity.
Qed.

(** C7, as the code has it.  Without an [id] route parameter the handler
    throws before it queries anything.  With one, it sends a single query
    whose variables are exactly [limit], [offset], [orderBy], [address] and
    [now]: the limit, offset and order derived from the context (order
    defaulting to [CREATED_AT_DESC]), the lower-cased id, and the current
    date; the page is not among them.  It throws when the client rejects,
    returns an error or returns no data, and otherwise returns as props the
    page derived from the context and the same limit, offset, order and
    address it queried with. *)
Theorem getServerSideProps_spec (context : Context) (date : JS.Date) :
  (params context ≫= (.!! "id") = None ->
     run (handler context date) =
       ([], Throw (JS.InvariantError "userAddress is falsy")))
  /\ (forall s,
        (params context ≫= (.!! "id") = Some (Single s)
         \/ exists rest,
              params context ≫= (.!! "id") = Some (Multi (s :: rest))) ->
        JS.truthy s = true ->
        JS.truthy (toLowerCase s) = true ->
        run (handler context date) =
          ([ClientQuery number (derived context (toLowerCase s) date)],
           match client (derived context (toLowerCase s) date) with
           | Rejected e => Throw e
           | Settled _ (Some e) => Throw e
           | Settled None None => Throw (JS.Error "data is falsy")
           | Settled (Some data) None =>
               Normal
                 {| page := getPage context;
                    limit := getLimit context PAGINATION_LIMIT;
                    offset := getOffset context PAGINATION_LIMIT;
                    orderBy := getOrder context "CREATED_AT_DESC";
                    userAddress := toLowerCase s;
                    now := toJSON date;
                    meta :=
                      {| title :=
                           JS.or_else (account data ≫= name) (toLowerCase s);
                         meta_description :=
                           JS.or_else (account data ≫= description) "";
                         meta_image :=
                           JS.or_else (account data ≫= image) "" |} |}
           end))
  /\ (forall v : Variables number,
        dom (variables_object number v)
        = ({[ "limit"; "offset"; "orderBy"; "address"; "now" ]} : gset string)).
Proof.
  split; [|split].
  - intros H. unfold run, getServerSideProps, userAddress_of. rewrite H.
    reflexivity.
  - intros s Hid Hs Hl. unfold run, getServerSideProps.
    rewrite (userAddress_of_id context s Hid Hs). simpl. rewrite Hl. simpl.
    unfold mbind, eff_bind, bind, client_query.
    destruct (client _) as [e | [data|] [e|]]; reflexivity.
  - intros v. unfold variables_object.
    rewrite !dom_insert_L, dom_singleton_L. set_solver.
Qed.

End ServerSideFacts.

Lemma getServerSideProps_spec_witness :
  run (getServerSideProps Z Sample.getLimit Sample.getPage Sample.getOrder
         Sample.getOffset 12 Sample.toLowerCase Sample.toJSON Sample.client
         Sample.context (JS.ValidDate 1640995200000)) =
    ([ClientQuery Z
        {| var_limit := 12;
           var_offset := 0;
           var_orderBy := "CREATED_AT_DESC";
           var_address := "0xa11ce";
           var_now := JS.ValidDate 1640995200000 |}],
     Normal
       {| page := 1;
          limit := 12;
          offset := 0;
          orderBy := "CREATED_AT_DESC";
          userAddress := "0xa11ce";
          now := "2022-01-01T00:00:00.000Z";
          meta :=
            {| title := "Alice";
               meta_description := "";
               meta_image := "" |} |}).
Proof.
  pose proof (getServerSideProps_spec Z Sample.getLimit Sample.getPage
                Sample.getOrder Sample.getOffset 12 Sample.toLowerCase
                Sample.toJSON Sample.client Sample.context
                (JS.ValidDate 1640995200000)) as (_ & H & _).
  apply (H "0xA11CE").
  - left. vm_compute. reflexivity.
  - reflexivity.
  - reflexivity.
Defined.

(** C7 as stated fails: the query of the sample request carries no [page]
    variable and carries [now], so its variables are not the claimed
    limit, page, offset, orderBy and address. *)
Lemma query_variables_are_not_the_claimed_ones :
  exists v,
    trace_of
      (getServerSideProps Z Sample.getLimit Sample.getPage Sample.getOrder
         Sample.getOffset 12 Sample.toLowerCase Sample.toJSON Sample.client
         Sample.context (JS.ValidDate 1640995200000)) = [ClientQuery Z v]
    /\ variables_object Z v !! "page" = None
    /\ variables_object Z v !! "now"
       = Some (VDate Z (JS.ValidDate 1640995200000))
    /\ dom (variables_object Z v)
       <> ({[ "limit"; "page"; "offset"; "orderBy"; "address" ]} : gset string).
Proof.
  eexists. split; [vm_compute; reflexivity|].
  split; [vm_compute; reflexivity|].
  split; [vm_compute; reflexivity|].
  intros H.
  assert (Hin : "page" ∈ dom (variables_object Z
                   {| var_limit := 12; var_offset := 0;
                      var_orderBy := "CREATED_AT_DESC";
                      var_address := "0xa11ce";
                      var_now := JS.ValidDate 1640995200000 |})).
  { rewrite H. set_solver. }
  apply elem_of_dom in Hin. destruct Hin as [x Hx].
  vm_compute in Hx. discriminate Hx.
Qed.

(** A request without route parameters is refused. *)
Example getServerSideProps_without_id :
  run (getServerSideProps Z Sample.getLimit Sample.getPage Sample.getOrder
         Sample.getOffset 12 Sample.toLowerCase Sample.toJSON Sample.client
         {| params := None; query := ∅ |} (JS.ValidDate 0)) =
    ([], Throw (JS.InvariantError "userAddress is falsy")).
Proof. reflexivity. Qed.

Section RowFacts.
Context {CancelOfferStep : Type} `{EqDecision CancelOfferStep}.
Variable INITIAL : CancelOfferStep.
Variable t : string -> string.
Variable formatError : JS.thrown -> string.
Variable cancel : string -> option JS.thrown.
Variable refetch : option JS.thrown.

Local Abbreviation cancelOffer := (handleCancelOffer t formatError cancel refetch).
Local Abbreviation click := (clickAction t formatError cancel refetch).


Lemma cancelOffer_calls_hook_once (id : string) :
  filter is_cancel (trace_of (cancelOffer id)) = [Cancel id].
Proof.
  HandlerFacts.run_handler. destruct (cancel id); simpl; [reflexivity|].
  destruct refetch; reflexivity.
Qed.

(** C6. No action is rendered unless the profile owner is logged in.  For
    the owner, a bid without expiry date or with an expiry date strictly in
    the future gets a cancel button that, when clicked while enabled, runs
    the cancellation, which calls the [cancel] hook once with the id of that
    bid; every other bid gets a link to [/tokens/<asset id>/bid]. *)
Theorem row_actions
    (activeStep : CancelOfferStep) (item : Bid) (today : Z) :
  rowAction INITIAL false activeStep item today = None
  /\ ((expiredAt item = None
       \/ exists ms, expiredAt item = Some (JS.ValidDate ms) /\ today < ms) ->
      rowAction INITIAL true activeStep item today
        = Some (CancelButton (bool_decide (activeStep <> INITIAL)) (id item))
      /\ click (rowAction INITIAL true INITIAL item today)
           = cancelOffer (id item)
      /\ filter is_cancel (trace_of (cancelOffer (id item)))
           = [Cancel (id item)])
  /\ (~ (expiredAt item = None
         \/ exists ms, expiredAt item = Some (JS.ValidDate ms) /\ today < ms) ->
      rowAction INITIAL true activeStep item today
        = Some (NewBidLink
                  ("/tokens/" +:+ asset_id (asset item) +:+ "/bid"))).
Proof.
  split; [reflexivity|]. split.
  - intros Hopen.
    assert (Hc : (match expiredAt item with
                  | Some d => JS.date_gt d (JS.ValidDate today)
                  | None => true
                  end) = true).
    { destruct Hopen as [-> | (ms & -> & Hlt)]; [reflexivity|].
      simpl. apply Z.ltb_lt. exact Hlt. }
    unfold rowAction. rewrite Hc. repeat split.
    + simpl. rewrite bool_decide_eq_false_2; [reflexivity|].
      intros Hne. apply Hne. reflexivity.
    + apply cancelOffer_calls_hook_once.
  - intros Hclosed. unfold rowAction.
    destruct (expiredAt item) as [[ms|]|] eqn:He; simpl.
    + destruct (today <? ms) eqn:Hlt; [|reflexivity].
      exfalso. apply Hclosed. right. exists ms. split; [reflexivity|].
      apply Z.ltb_lt. exact Hlt.
    + reflexivity.
    + exfalso. apply Hclosed. left. reflexivity.
Qed.

(** C9. The status cell shows the text of [status.expired] exactly for a bid
    whose expiry date is at or before the current time, and the text of
    [status.active] for every other bid, those without expiry date included;
    the price cell shows [unitPrice * availableQuantity]. *)
Theorem status_and_price
    (ownerLoggedIn : bool) (activeStep : CancelOfferStep) (item : Bid)
    (today1 today2 : Z) :
  let row := renderRow INITIAL t ownerLoggedIn activeStep item today1 today2 in
  status row = t (statusKey item today1)
  /\ (statusKey item today1 = "user.bid-placed.status.expired" <->
      exists ms, expiredAt item = Some (JS.ValidDate ms) /\ ms <= today1)
  /\ (statusKey item today1 = "user.bid-placed.status.active" <->
      ~ exists ms, expiredAt item = Some (JS.ValidDate ms) /\ ms <= today1)
  /\ amount row = unitPrice item * availableQuantity item.
Proof.
  simpl. split; [reflexivity|].
  assert (Hexp : statusKey item today1 = "user.bid-placed.status.expired" <->
                 exists ms, expiredAt item = Some (JS.ValidDate ms)
                            /\ ms <= today1).
  { unfold statusKey. destruct (expiredAt item) as [[ms|]|]; simpl.
    - destruct (ms <=? today1) eqn:Hle.
      + split; [|reflexivity]. intros _. exists ms. split; [reflexivity|].
        apply Z.leb_le. exact Hle.
      + split; [discriminate|]. intros (ms' & [= <-] & Hle').
        apply Z.leb_le in Hle'. congruence.
    - split; [discriminate|]. intros (ms' & [=] & _).
    - split; [discriminate|]. intros (ms' & [=] & _). }
  split; [exact Hexp|]. split; [|reflexivity].
  rewrite <- Hexp. unfold statusKey.
  destruct (expiredAt item) as [d|]; [destruct (JS.date_le d _)|];
    split; try reflexivity; try discriminate; intros Hn; exfalso;
    apply Hn; reflexivity.
Qed.

End RowFacts.


Lemma row_actions_witness :
  rowAction Sample.INITIAL true Sample.INITIAL
    (Sample.bid (Some (JS.ValidDate 9000))) 5000
    = Some (CancelButton false "bid-7")
  /\ rowAction Sample.INITIAL true Sample.INITIAL
       (Sample.bid (Some (JS.ValidDate 5000))) 5000
       = Some (NewBidLink "/tokens/80001-0xc0ffee-1/bid").
Proof.
  split.
  - pose proof (row_actions Sample.INITIAL Sample.t Sample.formatError
                  (fun _ => None) None Sample.INITIAL
                  (Sample.bid (Some (JS.ValidDate 9000))) 5000)
      as (_ & H & _).
    apply H. right. exists 9000. split; [reflexivity | lia].
  - pose proof (row_actions Sample.INITIAL Sample.t Sample.formatError
                  (fun _ => None) None Sample.INITIAL
                  (Sample.bid (Some (JS.ValidDate 5000))) 5000)
      as (_ & _ & H).
    apply H. intros [H' | (ms & [= <-] & Hlt)]; [discriminate H' | lia].
Defined.

(** A bid that expires exactly now is shown as expired and gets the link. *)
Example bid_expiring_now :
  statusKey (Sample.bid (Some (JS.ValidDate 5000))) 5000
    = "user.bid-placed.status.expired"
  /\ amount (renderRow Sample.INITIAL Sample.t true Sample.INITIAL
               (Sample.bid (Some (JS.ValidDate 5000))) 5000 5000) = 60.
Proof. split; reflexivity. Qed.

End BidsPlacedFacts.

(* ===================================================================== *)
(** * Properties of the token-creation page *)
(* ===================================================================== *)

Module CreateFacts.
Import Create.

Section PageFacts.
Variable REPORT_EMAIL : string.
Variable t : string -> string.

(** C10. With [RESTRICT_TO_VERIFIED_ACCOUNT] set, whenever the verification
    status of the fetched account is not [VALIDATED] (also when there is no
    account or no verification yet) the page renders no [TokenFormCreate]
    and shows the restricted-access notice. *)
Theorem unverified_account_never_sees_form
    (data : option FetchAccountQuery) (multiple : bool) :
  status <$> ((data ≫= account) ≫= verification) <> Some "VALIDATED" ->
  let page := CreatePage true REPORT_EMAIL t data multiple in
  renders "TokenFormCreate" page = false
  /\ shows (t "asset.restricted.title") page = true
  /\ shows (t "asset.restricted.info") page = true.
Proof.
  intros Hs.
  assert (Hv : verified (creator data) = false).
  { unfold creator. simpl. apply bool_decide_eq_false. exact Hs. }
  unfold CreatePage. rewrite Hv. simpl.
  repeat match goal with
         | |- context [bool_decide (?a = ?a)] =>
             rewrite (bool_decide_eq_true_2 (a = a) eq_refl)
         end.
  repeat split;
    repeat match goal with
           | |- context [bool_decide ?P] => destruct (bool_decide P)
           end; reflexivity.
Qed.

End PageFacts.

Lemma unverified_account_never_sees_form_witness :
  renders "TokenFormCreate"
    (CreatePage true "report@example.org" Sample.t
       (Some Sample.pendingAccount) false) = false.
Proof.
  apply (unverified_account_never_sees_form "report@example.org" Sample.t
           (Some Sample.pendingAccount) false).
  discriminate.
Defined.

(** Without the restriction, or for a validated account, the form is there. *)
Example unrestricted_page_has_form :
  renders "TokenFormCreate"
    (CreatePage false "report@example.org" Sample.t
       (Some Sample.pendingAccount) false) = true.
Proof. reflexivity. Qed.

End CreateFacts.

(* ===================================================================== *)
(** * Further properties of the checkout form *)
(* ===================================================================== *)

Module CheckoutMore.
Import Async Checkout.

Section Form.
Variable BigNumber_from : string -> option Z.
Variable formatError : JS.thrown -> string.
Variable acceptOffer : Offer -> string -> option JS.thrown.
Variable onPurchased : option JS.thrown.

Local Abbreviation click' :=
  (click BigNumber_from formatError acceptOffer onPurchased).

(** X1. The form cannot be rendered exactly when the unit price is not a
    BigNumber string, or the balance is loaded and the quantity is a
    non-empty string that is not one.  While the balance is loading, or with
    an empty quantity, a malformed quantity does no harm. *)
Theorem render_throws_iff (p : Props) (h : Hooks) :
  render BigNumber_from p h = None <->
  BigNumber_from (unitPrice (offer p)) = None
  \/ (exists b, balance h = Some b /\ JS.truthy (quantity h) = true
                /\ BigNumber_from (quantity h) = None).
Proof.
  unfold render, purchasable, priceUnit, canPurchase.
  destruct (BigNumber_from (unitPrice (offer p))) as [price|]; simpl;
    [|split; auto].
  destruct (balance h) as [b|]; simpl.
  - destruct (JS.truthy (quantity h)) eqn:Hq; simpl.
    + destruct (BigNumber_from (quantity h)) as [q|] eqn:Hn; simpl.
      * split; [discriminate|].
        intros [H | (b' & _ & _ & H)]; discriminate H.
      * split; [|reflexivity]. intros _. right. exists b. auto.
    + split; [discriminate|].
      intros [H | (b' & _ & H & _)]; discriminate H.
  - split; [discriminate|].
    intros [H | (b' & H & _)]; discriminate H.
Qed.

(** X2. Once a balance covers the purchase, every larger balance does. *)
Theorem purchasable_monotone (o : Offer) (quantity : string)
    (submitting : bool) (b b' : Z) :
  purchasable BigNumber_from o
    {| balance := Some b; quantity := quantity; isSubmitting := submitting |}
    = Some true ->
  b <= b' ->
  purchasable BigNumber_from o
    {| balance := Some b'; quantity := quantity; isSubmitting := submitting |}
    = Some true.
Proof.
  unfold purchasable, priceUnit, canPurchase. simpl.
  destruct (BigNumber_from (unitPrice o)) as [price|]; simpl; [|discriminate].
  destruct (JS.truthy quantity); simpl; [|discriminate].
  destruct (BigNumber_from quantity) as [q|]; [|discriminate].
  intros [= H] Hle. f_equal. apply Z.leb_le. apply Z.leb_le in H. lia.
Qed.

(** X3. A click on the button reaches [acceptOffer] only for a connected
    account whose balance covers the purchase, and then with the offer of the
    props and the quantity the form holds. *)
Theorem click_purchases_only_when_affordable
    (p : Props) (h : Hooks) (o : Offer) (q : string) :
  In (AcceptOffer o q) (trace_of (click' p h)) ->
  JS.truthy_opt (account p) = true
  /\ purchasable BigNumber_from (offer p) h = Some true
  /\ o = offer p /\ q = quantity h.
Proof.
  unfold click, render.
  destruct (purchasable BigNumber_from (offer p) h) as [can|]; simpl;
    [|intros []].
  destruct (JS.truthy_opt (account p)); simpl.
  - destruct can; simpl; [|intros []].
    unfold onSubmit. destruct (multiple p && negb (JS.truthy (quantity h)));
      [intros []|].
    unfold trace_of, run, submitHandler, try_catch_finally, mbind, eff_bind,
      bind, call, emit. simpl.
    destruct (acceptOffer (offer p) (quantity h)); simpl;
      [|destruct onPurchased; simpl];
      intros Hin;
      repeat (destruct Hin as [Hin|Hin]; [try discriminate Hin|]);
      try contradiction; injection Hin as <- <-; auto.
  - intros [H|[]]. discriminate H.
Qed.

(** X4. The [Balance] panel is shown exactly to a connected account.  It
    offers a top-up only while the submit button is disabled, and whenever
    [allowTopUp] is set its top-up flag and the button's [disabled] flag
    agree. *)
Theorem top_up_follows_button (p : Props) (h : Hooks) (v : View) :
  render BigNumber_from p h = Some v ->
  (balanceAllowTopUp v = None <-> JS.truthy_opt (account p) = false)
  /\ (balanceAllowTopUp v = Some true -> disabled (button v) = true)
  /\ (JS.truthy_opt (account p) = true -> allowTopUp p = true ->
      balanceAllowTopUp v = Some (disabled (button v))).
Proof.
  unfold render.
  destruct (purchasable BigNumber_from (offer p) h) as [can|]; simpl;
    [|discriminate].
  intros [= <-]. simpl.
  destruct (JS.truthy_opt (account p)); simpl.
  - split; [split; discriminate|]. split.
    + intros [= H]. apply andb_true_iff in H. apply H.
    + intros _ ->. reflexivity.
  - split; [split; reflexivity|]. split; discriminate.
Qed.

End Form.

Lemma purchasable_monotone_witness :
  purchasable JS.BigNumber_from_decimal Sample.offer
    {| balance := Some 900; quantity := "5"; isSubmitting := false |}
    = Some true.
Proof.
  apply (purchasable_monotone JS.BigNumber_from_decimal Sample.offer "5"
           false 500 900); [reflexivity | lia].
Defined.

Lemma click_purchases_only_when_affordable_witness :
  JS.truthy_opt (account Sample.buyer) = true
  /\ purchasable JS.BigNumber_from_decimal (offer Sample.buyer)
       (Sample.hooks (Some 500) "5") = Some true
  /\ Sample.offer = offer Sample.buyer
  /\ "5" = quantity (Sample.hooks (Some 500) "5").
Proof.
  apply (click_purchases_only_when_affordable JS.BigNumber_from_decimal
           Sample.formatError (fun _ _ => None) None Sample.buyer
           (Sample.hooks (Some 500) "5") Sample.offer "5").
  vm_compute. auto.
Defined.

Lemma top_up_follows_button_witness :
  exists v,
    render JS.BigNumber_from_decimal Sample.buyer (Sample.hooks (Some 40) "5")
      = Some v
    /\ balanceAllowTopUp v = Some (disabled (button v)).
Proof.
  eexists. split; [reflexivity|].
  apply (top_up_follows_button JS.BigNumber_from_decimal Sample.buyer
           (Sample.hooks (Some 40) "5")); reflexivity.
Defined.

End CheckoutMore.

(* ===================================================================== *)
(** * Further properties of the two handlers *)
(* ===================================================================== *)

Module HandlerMore.
Import Async.

Ltac run_handler :=
  unfold trace_of, completion_of, run, Checkout.submitHandler,
    BidsPlaced.handleCancelOffer, try_catch_finally, mbind, eff_bind, bind,
    call, emit; simpl.

(** [In ev tr <-> outcome = None] on a concrete trace [tr]. *)
Ltac in_trace :=
  let H := fresh "H" in
  split; intros H;
  [ first [ reflexivity
          | repeat (destruct H as [H|H]; [discriminate H|]); contradiction ]
  | first [ discriminate H | simpl; auto 8 ] ].

Section Handlers.
Variable formatError : JS.thrown -> string.
Variable t : string -> string.
Variable acceptOffer : Checkout.Offer -> string -> option JS.thrown.
Variable onPurchased : option JS.thrown.
Variable cancel : string -> option JS.thrown.
Variable refetch : option JS.thrown.

Local Abbreviation submit :=
  (Checkout.submitHandler formatError acceptOffer onPurchased).
Local Abbreviation cancelOffer :=
  (BidsPlaced.handleCancelOffer t formatError cancel refetch).

(** X6. Neither handler ever rejects: whatever the hook, the callback and
    the refetch do, the handler completes normally. *)
Theorem handlers_never_reject (o : Checkout.Offer) (q id : string) :
  completion_of (submit o q) = Normal tt
  /\ completion_of (cancelOffer id) = Normal tt.
Proof.
  split; run_handler.
  - destruct (acceptOffer o q); simpl; [reflexivity|].
    destruct onPurchased; reflexivity.
  - destruct (cancel id); simpl; [reflexivity|].
    destruct refetch; reflexivity.
Qed.

(** X7. An exception of the [onPurchased] callback, thrown after the
    purchase went through, is reported like a failed purchase: one error
    toast with [formatError e], then the modal is closed. *)
Theorem onPurchased_failure_is_toasted
    (o : Checkout.Offer) (q : string) (e : JS.thrown) :
  acceptOffer o q = None ->
  onPurchased = Some e ->
  run (submit o q) =
    ([Checkout.AcceptOfferOnOpen; Checkout.AcceptOffer o q;
      Checkout.OnPurchased;
      Checkout.Toast (formatError e) Checkout.StatusError;
      Checkout.AcceptOfferOnClose], Normal tt).
Proof. intros H1 H2. run_handler. rewrite H1. simpl. rewrite H2. reflexivity. Qed.

(** X8. When the cancellation went through and the refetch fails, the page
    shows the success toast and then an error toast with [formatError e]. *)
Theorem refetch_failure_shows_both_toasts (id : string) (e : JS.thrown) :
  cancel id = None ->
  refetch = Some e ->
  run (cancelOffer id) =
    ([BidsPlaced.OnOpen; BidsPlaced.Cancel id;
      BidsPlaced.Toast (t "user.bid-placed.notifications.canceled")
        BidsPlaced.StatusSuccess;
      BidsPlaced.Refetch;
      BidsPlaced.Toast (formatError e) BidsPlaced.StatusError;
      BidsPlaced.OnClose], Normal tt).
Proof. intros H1 H2. run_handler. rewrite H1. simpl. rewrite H2. reflexivity. Qed.

(** X9. The continuation runs exactly when the hook resolved: [onPurchased]
    is called if and only if [acceptOffer] resolved, and the list of bids is
    refetched if and only if [cancel] resolved. *)
Theorem continuation_iff_hook_resolved
    (o : Checkout.Offer) (q id : string) :
  (In Checkout.OnPurchased (trace_of (submit o q)) <-> acceptOffer o q = None)
  /\ (In BidsPlaced.Refetch (trace_of (cancelOffer id)) <-> cancel id = None).
Proof.
  split; run_handler.
  - destruct (acceptOffer o q); simpl; [in_trace|].
    destruct onPurchased; simpl; in_trace.
  - destruct (cancel id); simpl; [in_trace|].
    destruct refetch; simpl; in_trace.
Qed.

(** X10. The modal is opened first and closed last, and the hook is called
    right after it was opened, with the arguments of the handler. *)
Theorem hook_called_while_modal_open (o : Checkout.Offer) (q id : string) :
  (exists mid,
     trace_of (submit o q) =
       [Checkout.AcceptOfferOnOpen; Checkout.AcceptOffer o q] ++ mid
       ++ [Checkout.AcceptOfferOnClose])
  /\ (exists mid,
        trace_of (cancelOffer id) =
          [BidsPlaced.OnOpen; BidsPlaced.Cancel id] ++ mid
          ++ [BidsPlaced.OnClose]).
Proof.
  split; run_handler.
  - destruct (acceptOffer o q); simpl; [eexists [_]; reflexivity|].
    destruct onPurchased; simpl; [eexists [_; _] | eexists [_]]; reflexivity.
  - destruct (cancel id); simpl; [eexists [_]; reflexivity|].
    destruct refetch; simpl; [eexists [_; _; _] | eexists [_; _]];
      reflexivity.
Qed.

End Handlers.

Lemma onPurchased_failure_is_toasted_witness :
  run (Checkout.submitHandler Sample.formatError (fun _ _ => None)
         (Some (JS.Error "navigation failed")) Sample.offer "2") =
    ([Checkout.AcceptOfferOnOpen; Checkout.AcceptOffer Sample.offer "2";
      Checkout.OnPurchased;
      Checkout.Toast "navigation failed" Checkout.StatusError;
      Checkout.AcceptOfferOnClose], Normal tt).
Proof.
  apply (onPurchased_failure_is_toasted Sample.formatError (fun _ _ => None)
           (Some (JS.Error "navigation failed")) Sample.offer "2"
           (JS.Error "navigation failed")); reflexivity.
Defined.

Lemma refetch_failure_shows_both_toasts_witness :
  run (BidsPlaced.handleCancelOffer Sample.t Sample.formatError
         (fun _ => None) (Sample.rejecting "network error") "bid-7") =
    ([BidsPlaced.OnOpen; BidsPlaced.Cancel "bid-7";
      BidsPlaced.Toast "user.bid-placed.notifications.canceled"
        BidsPlaced.StatusSuccess;
      BidsPlaced.Refetch;
      BidsPlaced.Toast "network error" BidsPlaced.StatusError;
      BidsPlaced.OnClose], Normal tt).
Proof.
  apply (refetch_failure_shows_both_toasts Sample.formatError Sample.t
           (fun _ => None) (Sample.rejecting "network error") "bid-7"
           (JS.Foreign "network error")); reflexivity.
Defined.

End HandlerMore.

(* ===================================================================== *)
(** * Further properties of the bids-placed page *)
(* ===================================================================== *)

Module BidsPlacedMore.
Import Async BidsPlaced.

Lemma or_else_truthy (a : option string) (b : string) :
  JS.truthy b = true -> JS.truthy (JS.or_else a b) = true.
Proof.
  intros Hb. unfold JS.or_else. destruct a as [s|]; [|exact Hb].
  destruct (JS.truthy s) eqn:Hs; assumption.
Qed.

Section ServerSideMore.
Variable number : Type.
Variable getLimit : Context -> number -> number.
Variable getPage : Context -> number.
Variable getOrder : Context -> string -> string.
Variable getOffset : Context -> number -> number.
Variable PAGINATION_LIMIT : number.
Variable toLowerCase : string -> string.
Variable toJSON : JS.Date -> string.
Variable client : Variables number -> QueryResult.

Local Abbreviation handler :=
  (getServerSideProps number getLimit getPage getOrder getOffset
     PAGINATION_LIMIT toLowerCase toJSON client).

(** Every run either throws before any query, or sends one query for a
    non-empty address and returns props only for settled data without error,
    with that address and a title made from it. *)
Lemma handler_cases (context : Context) (date : JS.Date) :
  (exists e, run (handler context date) = ([], Throw e))
  \/ (exists v,
        JS.truthy (var_address _ v) = true
        /\ fst (run (handler context date)) = [ClientQuery number v]
        /\ forall props,
             snd (run (handler context date)) = Normal props ->
             (exists data, client v = Settled (Some data) None
                /\ title (meta _ props)
                   = JS.or_else (account data ≫= name) (var_address _ v))
             /\ userAddress _ props = var_address _ v).
Proof.
  unfold run, getServerSideProps.
  destruct (userAddress_of toLowerCase context) as [[address|]|e] eqn:Hu;
    simpl; eauto.
  destruct (JS.truthy address) eqn:Ha; simpl; eauto.
  right.
  exists {| var_limit := getLimit context PAGINATION_LIMIT;
            var_offset := getOffset context PAGINATION_LIMIT;
            var_orderBy := getOrder context "CREATED_AT_DESC";
            var_address := address;
            var_now := date |}.
  split; [exact Ha|].
  unfold mbind, eff_bind, bind, client_query. simpl.
  destruct (client _) as [e | [data|] [e|]]; simpl;
    (split; [reflexivity|]); intros props Hp; try discriminate Hp.
  injection Hp as <-. simpl. eauto.
Qed.

(** X11. The handler sends at most one query, and never one with an empty
    address. *)
Theorem query_only_for_an_address (context : Context) (date : JS.Date) :
  trace_of (handler context date) = []
  \/ exists v,
       trace_of (handler context date) = [ClientQuery number v]
       /\ JS.truthy (var_address _ v) = true.
Proof.
  unfold trace_of.
  destruct (handler_cases context date) as [[e ->] | (v & Hv & Ht & _)].
  - left. reflexivity.
  - right. exists v. auto.
Qed.

(** X12. An [id] parameter that is an empty array makes the handler throw a
    TypeError, and one that is the empty string the invariant error; neither
    run queries the backend. *)
Theorem degenerate_id_throws (context : Context) (date : JS.Date) :
  (params context ≫= (.!! "id") = Some (Multi []) ->
     run (handler context date) = ([], Throw JS.TypeError))
  /\ (params context ≫= (.!! "id") = Some (Single "") ->
        run (handler context date) =
          ([], Throw (JS.InvariantError "userAddress is falsy"))).
Proof.
  split; intros H; unfold run, getServerSideProps, userAddress_of; rewrite H;
    reflexivity.
Qed.

(** X13. Whenever props are returned, the user address in them is not empty
    and neither is the page title: the title is the name of the account the
    query returned when that name is non-empty, and the user address
    otherwise. *)
Theorem title_never_empty (context : Context) (date : JS.Date)
    (props : Props number) :
  completion_of (handler context date) = Normal props ->
  JS.truthy (userAddress _ props) = true
  /\ JS.truthy (title (meta _ props)) = true
  /\ exists v data,
       trace_of (handler context date) = [ClientQuery number v]
       /\ var_address _ v = userAddress _ props
       /\ client v = Settled (Some data) None
       /\ title (meta _ props) =
            match account data ≫= name with
            | Some n => if JS.truthy n then n else userAddress _ props
            | None => userAddress _ props
            end.
Proof.
  unfold completion_of, trace_of. intros Hp.
  destruct (handler_cases context date) as [[e He] | (v & Hv & Htr & H)].
  - rewrite He in Hp. discriminate Hp.
  - destruct (H props Hp) as [(data & Hc & Ht) Hu]. split; [|split].
    + rewrite Hu. exact Hv.
    + rewrite Ht. apply or_else_truthy. exact Hv.
    + exists v, data. repeat split; auto.
      rewrite Ht, Hu. reflexivity.
Qed.

End ServerSideMore.

Lemma degenerate_id_throws_witness :
  run (getServerSideProps Z Sample.getLimit Sample.getPage Sample.getOrder
         Sample.getOffset 12 Sample.toLowerCase Sample.toJSON Sample.client
         {| params := Some {[ "id" := Multi [] ]}; query := ∅ |}
         (JS.ValidDate 0)) = ([], Throw JS.TypeError).
Proof.
  apply (degenerate_id_throws Z Sample.getLimit Sample.getPage Sample.getOrder
           Sample.getOffset 12 Sample.toLowerCase Sample.toJSON Sample.client
           {| params := Some {[ "id" := Multi [] ]}; query := ∅ |}
           (JS.ValidDate 0)).
  vm_compute. reflexivity.
Defined.

Lemma title_never_empty_witness :
  exists props,
    completion_of
      (getServerSideProps Z Sample.getLimit Sample.getPage Sample.getOrder
         Sample.getOffset 12 Sample.toLowerCase Sample.toJSON Sample.client
         Sample.context (JS.ValidDate 0)) = Normal props
    /\ JS.truthy (title (meta _ props)) = true.
Proof.
  eexists. split; [vm_compute; reflexivity|].
  refine (proj1 (proj2
            (title_never_empty Z Sample.getLimit Sample.getPage
               Sample.getOrder Sample.getOffset 12 Sample.toLowerCase
               Sample.toJSON Sample.client Sample.context (JS.ValidDate 0)
               _ _))).
  vm_compute. reflexivity.
Defined.

Section RowsMore.
Context {CancelOfferStep : Type} `{EqDecision CancelOfferStep}.
Variable INITIAL : CancelOfferStep.
Variable t : string -> string.
Variable formatError : JS.thrown -> string.
Variable cancel : string -> option JS.thrown.
Variable refetch : option JS.thrown.

Local Abbreviation click := (clickAction t formatError cancel refetch).

Lemma cancel_in_trace (id id' : string) :
  In (Cancel id')
     (trace_of (handleCancelOffer t formatError cancel refetch id)) ->
  id' = id.
Proof.
  unfold trace_of, run, handleCancelOffer, try_catch_finally, mbind, eff_bind,
    bind, call, emit. simpl.
  destruct (cancel id); simpl; [|destruct refetch; simpl];
    intros Hin;
    repeat (destruct Hin as [Hin|Hin]; [try discriminate Hin|]);
    try contradiction; injection Hin as <-; reflexivity.
Qed.

(** X14. A row whose status cell shows expired never gets a cancel button:
    the action cell reads the clock no earlier than the status cell, and the
    owner is offered the new-bid link. *)
Theorem expired_row_has_no_cancel
    (activeStep : CancelOfferStep) (item : Bid) (today1 today2 : Z) :
  statusKey item today1 = "user.bid-placed.status.expired" ->
  today1 <= today2 ->
  rowAction INITIAL true activeStep item today2
    = Some (NewBidLink ("/tokens/" +:+ asset_id (asset item) +:+ "/bid")).
Proof.
  unfold statusKey, rowAction.
  destruct (expiredAt item) as [[ms|]|]; simpl; try discriminate.
  destruct (ms <=? today1) eqn:Hle; [|discriminate].
  intros _ Hlt. apply Z.leb_le in Hle.
  replace (today2 <? ms) with false; [reflexivity|].
  symmetry. apply Z.ltb_ge. lia.
Qed.

(** X15. Read at one instant, the owner's action cell is the new-bid link
    exactly when the status cell shows expired or the expiry date is
    invalid; a bid with an invalid expiry date is shown as active and yet
    gets the link. *)
Theorem new_bid_link_iff
    (activeStep : CancelOfferStep) (item : Bid) (today : Z) :
  ((exists href,
      rowAction INITIAL true activeStep item today = Some (NewBidLink href))
   <-> statusKey item today = "user.bid-placed.status.expired"
       \/ expiredAt item = Some JS.InvalidDate)
  /\ (expiredAt item = Some JS.InvalidDate ->
      statusKey item today = "user.bid-placed.status.active").
Proof.
  unfold statusKey, rowAction. split.
  - destruct (expiredAt item) as [[ms|]|]; simpl.
    + rewrite (Z.ltb_antisym ms today).
      destruct (ms <=? today); simpl; split; eauto.
      * intros [href H]. discriminate H.
      * intros [H|H]; discriminate H.
    + split; eauto.
    + split.
      * intros [href H]. discriminate H.
      * intros [H|H]; discriminate H.
  - intros ->. reflexivity.
Qed.

(** X16. A click on an action cell calls the [cancel] hook only for the
    logged-in owner, only while no cancellation is in progress, only on a
    row shown as active, and only with the id of that row's bid. *)
Theorem cancel_only_by_owner_when_idle
    (ownerLoggedIn : bool) (activeStep : CancelOfferStep) (item : Bid)
    (today : Z) (id' : string) :
  In (Cancel id')
     (trace_of (click (rowAction INITIAL ownerLoggedIn activeStep item today))) ->
  ownerLoggedIn = true /\ activeStep = INITIAL /\ id' = id item
  /\ statusKey item today = "user.bid-placed.status.active".
Proof.
  unfold rowAction, statusKey. destruct ownerLoggedIn; [|intros []].
  destruct (expiredAt item) as [[ms|]|]; simpl.
  - rewrite (Z.ltb_antisym ms today).
    destruct (ms <=? today); simpl; [intros []|].
    destruct (decide (activeStep = INITIAL)) as [->|Hne].
    + rewrite bool_decide_eq_false_2 by (intros Hn; apply Hn; reflexivity).
      simpl. intros Hin. apply cancel_in_trace in Hin. auto.
    + rewrite bool_decide_eq_true_2 by exact Hne. intros [].
  - intros [].
  - destruct (decide (activeStep = INITIAL)) as [->|Hne].
    + rewrite bool_decide_eq_false_2 by (intros Hn; apply Hn; reflexivity).
      simpl. intros Hin. apply cancel_in_trace in Hin. auto.
    + rewrite bool_decide_eq_true_2 by exact Hne. intros [].
Qed.

(** X17. All cancel buttons of the table are disabled together: two rows
    rendered with the same [activeStep] never differ in it. *)
Theorem cancel_buttons_agree
    (activeStep : CancelOfferStep) (owner1 owner2 : bool) (item1 item2 : Bid)
    (today1 today2 : Z) (d1 d2 : bool) (id1 id2 : string) :
  rowAction INITIAL owner1 activeStep item1 today1
    = Some (CancelButton d1 id1) ->
  rowAction INITIAL owner2 activeStep item2 today2
    = Some (CancelButton d2 id2) ->
  d1 = d2.
Proof.
  unfold rowAction.
  destruct owner1, owner2; try discriminate.
  destruct (match expiredAt item1 with
            | Some d => JS.date_gt d (JS.ValidDate today1)
            | None => true
            end); [|discriminate].
  destruct (match expiredAt item2 with
            | Some d => JS.date_gt d (JS.ValidDate today2)
            | None => true
            end); [|discriminate].
  intros [= <- _] [= <- _]. reflexivity.
Qed.

End RowsMore.

Lemma expired_row_has_no_cancel_witness :
  rowAction Sample.INITIAL true Sample.INITIAL
    (Sample.bid (Some (JS.ValidDate 5000))) 5003
    = Some (NewBidLink "/tokens/80001-0xc0ffee-1/bid").
Proof.
  apply (expired_row_has_no_cancel Sample.INITIAL Sample.INITIAL
           (Sample.bid (Some (JS.ValidDate 5000))) 5000 5003);
    [reflexivity | lia].
Defined.

Lemma cancel_only_by_owner_when_idle_witness :
  true = true /\ Sample.INITIAL = Sample.INITIAL
  /\ "bid-7" = id (Sample.bid None)
  /\ statusKey (Sample.bid None) 5000 = "user.bid-placed.status.active".
Proof.
  apply (cancel_only_by_owner_when_idle Sample.INITIAL Sample.t
           Sample.formatError (fun _ => None) None true Sample.INITIAL
           (Sample.bid None) 5000 "bid-7").
  vm_compute. auto.
Defined.

Lemma cancel_buttons_agree_witness :
  rowAction Sample.INITIAL true Sample.TRANSACTION_SIGNATURE
    (Sample.bid None) 5000 = Some (CancelButton true "bid-7")
  /\ rowAction Sample.INITIAL true Sample.TRANSACTION_SIGNATURE
       (Sample.bid (Some (JS.ValidDate 9000))) 5001
       = Some (CancelButton true "bid-7")
  /\ true = true.
Proof.
  split; [reflexivity|]. split; [reflexivity|].
  apply (cancel_buttons_agree Sample.INITIAL Sample.TRANSACTION_SIGNATURE
           true true (Sample.bid None)
           (Sample.bid (Some (JS.ValidDate 9000))) 5000 5001
           true true "bid-7" "bid-7"); reflexivity.
Defined.

Lemma new_bid_link_iff_witness :
  statusKey (Sample.bid (Some JS.InvalidDate)) 5000
    = "user.bid-placed.status.active"
  /\ exists href,
       rowAction Sample.INITIAL true Sample.INITIAL
         (Sample.bid (Some JS.InvalidDate)) 5000 = Some (NewBidLink href).
Proof.
  pose proof (new_bid_link_iff Sample.INITIAL Sample.INITIAL
                (Sample.bid (Some JS.InvalidDate)) 5000) as [Hiff Hact].
  split.
  - apply Hact. reflexivity.
  - apply Hiff. right. reflexivity.
Defined.

Section Routing.
Import BidsPlacedRouting.

(** X18. Choosing an order replaces the URL once, on the same path, with
    [orderBy] set to the chosen value and every other query parameter kept;
    a rejected navigation is not caught.  Choosing again overrides the
    earlier choice. *)
Theorem changeOrder_keeps_other_parameters
    (pathname : string) (query : gmap string RouteParam)
    (replace : option JS.thrown) (orderBy : string) :
  exists query',
    run (changeOrder pathname query replace orderBy) =
      ([Replace pathname query'],
       match replace with None => Normal tt | Some e => Throw e end)
    /\ query' !! "orderBy" = Some (Single orderBy)
    /\ (forall k, k <> "orderBy" -> query' !! k = query !! k)
    /\ (forall replace' orderBy',
          trace_of (changeOrder pathname query' replace' orderBy')
          = trace_of (changeOrder pathname query replace' orderBy')).
Proof.
  exists (<["orderBy" := Single orderBy]> query). repeat split.
  - unfold run, changeOrder, call. destruct replace; reflexivity.
  - apply lookup_insert_eq.
  - intros k Hk. apply lookup_insert_ne. congruence.
  - intros replace' orderBy'. unfold trace_of, run, changeOrder, call.
    rewrite insert_insert_eq. destruct replace'; reflexivity.
Qed.

End Routing.

Lemma changeOrder_keeps_other_parameters_witness :
  exists query',
    trace_of (BidsPlacedRouting.changeOrder "/users/[id]/bids/placed"
                {[ "id" := Single "0xa11ce"; "page" := Single "2" ]}
                None "CREATED_AT_ASC")
      = [BidsPlacedRouting.Replace "/users/[id]/bids/placed" query']
    /\ query' !! "page" = Some (Single "2")
    /\ query' !! "orderBy" = Some (Single "CREATED_AT_ASC").
Proof.
  destruct (changeOrder_keeps_other_parameters "/users/[id]/bids/placed"
              {[ "id" := Single "0xa11ce"; "page" := Single "2" ]}
              None "CREATED_AT_ASC") as (query' & Hrun & Horder & Hother & _).
  exists query'. split; [|split].
  - unfold trace_of. rewrite Hrun. reflexivity.
  - rewrite Hother by discriminate. vm_compute. reflexivity.
  - exact Horder.
Defined.

End BidsPlacedMore.

(* ===================================================================== *)
(** * Further properties of the token-creation page *)
(* ===================================================================== *)

Module CreateMore.
Import Async Create.

Section PageMore.
Variable REPORT_EMAIL : string.
Variable t : string -> string.

(** X19. The creation form is rendered exactly when the restriction is off
    or the verification status of the fetched account is [VALIDATED]; the
    page shows either the form or the restricted notice, never both and
    never neither. *)
Theorem form_rendered_iff
    (restrict : bool) (data : option FetchAccountQuery) (multiple : bool) :
  let page := CreatePage restrict REPORT_EMAIL t data multiple in
  (renders "TokenFormCreate" page = true <->
   restrict = false
   \/ status <$> ((data ≫= account) ≫= verification) = Some "VALIDATED")
  /\ renders "Alert" page = negb (renders "TokenFormCreate" page).
Proof.
  unfold CreatePage, creator. simpl.
  destruct restrict; simpl.
  - case_bool_decide as Hs; simpl; split; try reflexivity.
    + split; [intros _; right; exact Hs | reflexivity].
    + split; [discriminate|]. intros [H|H]; [discriminate H | contradiction].
  - split; [|reflexivity]. split; [intros _; left|]; reflexivity.
Qed.

End PageMore.

Lemma or_undefined_truthy (x : option string) (s : string) :
  or_undefined x = Some s -> JS.truthy s = true.
Proof.
  unfold or_undefined. destruct x as [s'|]; [|discriminate].
  destruct (JS.truthy s') eqn:Hs; [|discriminate].
  intros [= <-]. exact Hs.
Qed.

(** X20. The creator shown on the preview card never has an empty field.
    Its address is the address of the fetched account when that is not
    empty, and ["0x"] otherwise; its image and its name are those of the
    account when they are not empty, and undefined otherwise; it is verified
    exactly when the account has a verification with status [VALIDATED].
    Without a fetched account the creator is ["0x"], unverified, with no
    image and no name. *)
Theorem creator_has_no_empty_field (data : option FetchAccountQuery) :
  creator_address (creator data) =
    match data ≫= account with
    | Some acc => if JS.truthy (address acc) then address acc else "0x"
    | None => "0x"
    end
  /\ JS.truthy (creator_address (creator data)) = true
  /\ (forall s, creator_image (creator data) = Some s <->
                (exists acc, data ≫= account = Some acc /\ image acc = Some s)
                /\ JS.truthy s = true)
  /\ (forall s, creator_name (creator data) = Some s <->
                (exists acc, data ≫= account = Some acc /\ name acc = Some s)
                /\ JS.truthy s = true)
  /\ (verified (creator data) = true <->
      exists acc v, data ≫= account = Some acc /\ verification acc = Some v
                    /\ status v = "VALIDATED")
  /\ (data ≫= account = None ->
      creator data =
        {| creator_address := "0x";
           creator_image := None;
           creator_name := None;
           verified := false |}).
Proof.
  unfold creator. simpl.
  split; [|split; [|split; [|split; [|split]]]].
  - destruct (data ≫= account); reflexivity.
  - apply BidsPlacedMore.or_else_truthy. reflexivity.
  - intros s. destruct (data ≫= account) as [acc|]; simpl.
    + unfold or_undefined. destruct (image acc) as [i|] eqn:Hf; simpl.
      * destruct (JS.truthy i) eqn:Hi; split.
        -- intros [= <-]. split; [exists acc; auto | exact Hi].
        -- intros [(acc' & Ha & Hs') _]. congruence.
        -- discriminate.
        -- intros [(acc' & Ha & Hs') Hs]. congruence.
      * split; [discriminate|]. intros [(acc' & Ha & Hs') _]. congruence.
    + split; [discriminate|]. intros [(acc' & H & _) _]. discriminate H.
  - intros s. destruct (data ≫= account) as [acc|]; simpl.
    + unfold or_undefined. destruct (name acc) as [i|] eqn:Hf; simpl.
      * destruct (JS.truthy i) eqn:Hi; split.
        -- intros [= <-]. split; [exists acc; auto | exact Hi].
        -- intros [(acc' & Ha & Hs') _]. congruence.
        -- discriminate.
        -- intros [(acc' & Ha & Hs') Hs]. congruence.
      * split; [discriminate|]. intros [(acc' & Ha & Hs') _]. congruence.
    + split; [discriminate|]. intros [(acc' & H & _) _]. discriminate H.
  - rewrite bool_decide_eq_true.
    destruct (data ≫= account) as [acc|]; simpl.
    + destruct (verification acc) as [v|] eqn:Hv; simpl; split.
      * intros [= H]. exists acc, v. auto.
      * intros (acc' & v' & Ha & Hv' & Hs). congruence.
      * discriminate.
      * intros (acc' & v' & Ha & Hv' & _). congruence.
    + split; [discriminate|]. intros (acc' & v' & H & _). discriminate H.
  - intros ->. reflexivity.
Qed.

Lemma creator_has_no_empty_field_witness :
  creator (Some {| account := None |}) =
    {| creator_address := "0x";
       creator_image := None;
       creator_name := None;
       verified := false |}.
Proof.
  apply (creator_has_no_empty_field (Some {| account := None |})).
  reflexivity.
Defined.

(** A fetched account with an empty address is shown as ["0x"]. *)
Example creator_of_empty_address :
  creator_address
    (creator (Some {| account :=
                        Some {| address := ""; image := Some "";
                                name := Some "Alice";
                                verification := None |} |})) = "0x".
Proof. reflexivity. Qed.

Import CreateClient.

Section Preview.
Context {File : Type}.

(** X21. Content marked private never reaches the preview card: the image
    shown is the preview file and no animation is shown.  The content file
    is never used for the image and the animation at once: whenever an
    animation is shown, the image is the preview file. *)
Theorem private_content_is_not_previewed (formData : option (FormData File)) :
  (flag (formData ≫= isPrivate) = true ->
     imageSource formData = formData ≫= preview
     /\ animationSource formData = None)
  /\ (animationSource formData <> None ->
      imageSource formData = formData ≫= preview
      /\ animationSource formData = formData ≫= content)
  /\ (formData = None ->
      imageSource formData = None /\ animationSource formData = None).
Proof.
  unfold imageSource, animationSource. repeat split.
  - rewrite H. reflexivity.
  - rewrite H. rewrite andb_false_r. reflexivity.
  - destruct (flag (formData ≫= isAnimation)); simpl in *;
      [rewrite orb_true_r; reflexivity | contradiction].
  - destruct (flag (formData ≫= isAnimation)
              && negb (flag (formData ≫= isPrivate)));
      [reflexivity | contradiction].
  - subst. reflexivity.
  - subst. reflexivity.
Qed.

End Preview.

Section Created.
Variable t : string -> string.
Variable push : string -> option JS.thrown.

(** X22. After a creation the page always shows the success toast first and
    then navigates to [/tokens/<assetId>]; a rejected navigation is not
    caught, so the handler rejects with the same error, the toast being
    already shown. *)
Theorem onCreated_toasts_then_navigates (assetId : string) :
  run (onCreated t push assetId) =
    ([Toast (t "asset.form.notifications.created") StatusSuccess;
      Push ("/tokens/" +:+ assetId)],
     match push ("/tokens/" +:+ assetId) with
     | None => Normal tt
     | Some e => Throw e
     end).
Proof.
  unfold run, onCreated, mbind, eff_bind, bind, call, emit. simpl.
  destruct (push _); reflexivity.
Qed.

End Created.

Import CreateServer.

Section Server.
Variable client : Variables -> QueryResult.

(** X23. The server-side handler of the creation page sends exactly one
    query, for the signed-in address or the empty string; it returns props
    only when the backend answered with data and without error, and then
    hands on the signed-in address unchanged and [multiple] set exactly when
    the [type] parameter is the single string [multiple]. *)
Theorem create_getServerSideProps_spec (context : Context) :
  let v := {| var_account := JS.or_else (user_address context) "" |} in
  trace_of (getServerSideProps client context) = [ClientQuery v]
  /\ forall props,
       completion_of (getServerSideProps client context) = Normal props <->
       (exists data, client v = Settled (Some data) None)
       /\ props =
            {| multiple :=
                 bool_decide (query context !! "type"
                              = Some (BidsPlaced.Single "multiple"));
               currentAccount := user_address context |}.
Proof.
  unfold trace_of, completion_of, run, getServerSideProps, mbind, eff_bind,
    bind, client_query. simpl.
  destruct (client _) as [e | [data|] [e|]]; simpl;
    (split; [reflexivity|]); intros props; split;
    first [ intros H; discriminate H
          | intros [[d Hd] _]; discriminate Hd
          | idtac ].
  - intros [= <-]. split; [eauto | reflexivity].
  - intros [_ ->]. reflexivity.
Qed.

End Server.

Lemma private_content_is_not_previewed_witness :
  imageSource
    (Some {| isPrivate := Some true; isAnimation := Some true;
             preview := Some "blurred.png"; content := Some "secret.mp4";
             name := None |}) = Some "blurred.png"
  /\ animationSource
       (Some {| isPrivate := Some true; isAnimation := Some true;
                preview := Some "blurred.png"; content := Some "secret.mp4";
                name := None |}) = None.
Proof.
  apply (private_content_is_not_previewed
           (Some {| isPrivate := Some true; isAnimation := Some true;
                    preview := Some "blurred.png";
                    content := Some "secret.mp4"; name := None |})).
  reflexivity.
Defined.

(** An array-valued [type] parameter does not select the multiple form. *)
Example type_array_is_not_multiple :
  completion_of
    (getServerSideProps
       (fun _ => Settled (Some {| Create.account := None |}) None)
       {| user_address := None;
          query := {[ "type" := BidsPlaced.Multi ["multiple"] ]} |})
  = Normal {| multiple := false; currentAccount := None |}.
Proof. vm_compute. reflexivity. Qed.

End CreateMore.
